(** * Route53 record reconciliation

    A shallow embedding of [cloud/amazon/route53.py]: the retrying
    [commit] helper and the [main] entry point of the module, together
    with the Python builtins they rely on.  Network calls are recorded in
    an event trace; Python exceptions are values of [Py.Res]. *)

From Stdlib Require Import ZArith Ascii.
From stdpp Require Import gmap strings list sorting.
From Equations Require Import Equations.

(** ** Python values and builtins *)

Module Py.

(** Exceptions that the module can see.  [DNSServerError] carries the
    XML body of the provider's error response ([e.body]). *)
Inductive Exn :=
| DNSServerError (body : string)
| IndexError
| KeyError
| TypeError
| ValueError
| OtherException (name : string).

(** Result of a call that may raise. *)
Inductive Res (A : Type) :=
| Ok (a : A)
| Raise (e : Exn).
Arguments Ok {A} a.
Arguments Raise {A} e.

(** The dynamically typed values found in [module.params] and in the
    attributes of a boto record set. *)
Inductive Val :=
| None_
| Bool (b : bool)
| Int (n : Z)
| Str (s : string)
| List (l : list string)
| Tuple (l : list string).

(** Truth value of an object, as tested by [if x] and [not x]. *)
Definition truthy (v : Val) : bool :=
  match v with
  | None_ => false
  | Bool b => b
  | Int n => negb (n =? 0)%Z
  | Str s => negb (bool_decide (s = ""))
  | List l | Tuple l => negb (bool_decide (l = []))
  end.

(** [v1 == v2].  Values of different types are unequal, except that a
    bool compares as the integer 0 or 1; in particular an [int] never
    equals a [str], and a tuple never equals a list. *)
Definition eq (v1 v2 : Val) : bool :=
  match v1, v2 with
  | None_, None_ => true
  | Bool b1, Bool b2 => bool_decide (b1 = b2)
  | Bool b, Int n | Int n, Bool b => (n =? (if b then 1 else 0))%Z
  | Int n1, Int n2 => (n1 =? n2)%Z
  | Str s1, Str s2 => bool_decide (s1 = s2)
  | List l1, List l2 => bool_decide (l1 = l2)
  | Tuple l1, Tuple l2 => bool_decide (l1 = l2)
  | _, _ => false
  end.

(** The elements visited by [for v in x] when [x] is a list or tuple. *)
Definition items (v : Val) : list string :=
  match v with
  | List l | Tuple l => l
  | _ => []
  end.

(** [l[i]] for a non-negative index. *)
Definition item {A} (l : list A) (i : nat) : Res A :=
  match l !! i with
  | Some x => Ok x
  | None => Raise IndexError
  end.

(** [s.split(sep)] for a non-empty separator: cut at every occurrence
    of [sep], scanning left to right without overlap.  [skip] counts
    the characters of a matched separator that are still to be passed
    over; [cur] is the piece being accumulated. *)
Fixpoint split_from (sep : string) (skip : nat) (cur s : string) : list string :=
  match s with
  | EmptyString => [cur]
  | String c s' =>
      match skip with
      | S k => split_from sep k cur s'
      | O =>
          if String.prefix sep s
          then cur :: split_from sep (String.length sep - 1) "" s'
          else split_from sep 0 (cur +:+ String c "") s'
      end
  end.

Definition split (s sep : string) : list string := split_from sep 0 "" s.

(** [s.replace(old, new)] for a non-empty [old]: every occurrence,
    left to right without overlap. *)
Fixpoint replace_from (old new : string) (skip : nat) (s : string) : string :=
  match s with
  | EmptyString => ""
  | String c s' =>
      match skip with
      | S k => replace_from old new k s'
      | O =>
          if String.prefix old s
          then new +:+ replace_from old new (String.length old - 1) s'
          else String c (replace_from old new 0 s')
      end
  end.

Definition replace (s old new : string) : string := replace_from old new 0 s.

(** [sep.join(l)]. *)
Definition join (sep : string) (l : list string) : string := String.concat sep l.

(** [s[-1:]]: the last character as a string, or the empty string. *)
Fixpoint last_slice (s : string) : string :=
  match s with
  | EmptyString => ""
  | String c EmptyString => String c ""
  | String _ s' => last_slice s'
  end.

(** [sorted(l)] on byte strings: ascending in the lexicographic order
    of the character codes. *)
Definition sorted (l : list string) : list string := merge_sort String.le l.

(** The numeric conversions the module applies to values of unknown
    type are kept abstract: [int v] is the builtin [int(v)], and
    [sleep v] is the call [time.sleep(float(v))], which either returns
    after the pause or raises. *)
Class Numeric := {
  int : Val → Res Z;
  sleep : Val → Res unit
}.

(** A sample instance covering integers and plain decimal numerals. *)
Fixpoint digits (acc : Z) (s : string) : option Z :=
  match s with
  | EmptyString => Some acc
  | String c s' =>
      match Ascii.is_nat c with
      | Some d => if decide (d < 10)%nat then digits (10 * acc + Z.of_nat d) s' else None
      | None => None
      end
  end.

Definition numeral (s : string) : option Z :=
  match s with
  | EmptyString => None
  | String "-"%char (String c s') => Z.opp <$> digits 0 (String c s')
  | _ => digits 0 s
  end.

Definition decimal_int (v : Val) : Res Z :=
  match v with
  | Int n => Ok n
  | Bool b => Ok (if b then 1 else 0)%Z
  | Str s => match numeral s with Some n => Ok n | None => Raise ValueError end
  | _ => Raise TypeError
  end.

Definition decimal_sleep (v : Val) : Res unit :=
  match decimal_int v with
  | Ok n => if decide (0 ≤ n)%Z then Ok () else Raise (OtherException "IOError")
  | Raise e => Raise e
  end.

Definition decimal : Numeric := {| int := decimal_int; sleep := decimal_sleep |}.

End Py.

Import Py (Res, Ok, Raise, Exn, DNSServerError, IndexError, KeyError, TypeError,
           ValueError, OtherException).

(** ** Change batches

    A boto [ResourceRecordSets] object is the hosted zone id together
    with the ordered list of change entries added so far. *)

Inductive Action := CREATE | DELETE.

Record Change := {
  ch_action : Action;
  ch_name : string;
  ch_type : string;
  ch_ttl : Py.Val;
  ch_values : list string
}.

Record ResourceRecordSets := {
  hosted_zone_id : string;
  changes : list Change
}.

(** [changes.add_change(action, name, type, ttl)] appends an entry with
    no values and returns it; the returned object is the one stored in
    the batch, so it is identified here by its position. *)
Definition add_change (c : ResourceRecordSets) (a : Action) (name type : string)
    (ttl : Py.Val) : ResourceRecordSets * nat :=
  ({| hosted_zone_id := hosted_zone_id c;
      changes := changes c ++ [{| ch_action := a; ch_name := name; ch_type := type;
                                  ch_ttl := ttl; ch_values := [] |}] |},
   length (changes c)).

(** [change.add_value(v)] on the entry at position [i]. *)
Definition add_value (c : ResourceRecordSets) (i : nat) (v : string) : ResourceRecordSets :=
  {| hosted_zone_id := hosted_zone_id c;
     changes := alter (λ ch, {| ch_action := ch_action ch; ch_name := ch_name ch;
                                ch_type := ch_type ch; ch_ttl := ch_ttl ch;
                                ch_values := ch_values ch ++ [v] |}) i (changes c) |}.

(** [for v in vs: change.add_value(v)]. *)
Definition add_values (c : ResourceRecordSets) (i : nat) (vs : list string) : ResourceRecordSets :=
  foldl (λ c v, add_value c i v) c vs.

(** ** Observable effects *)

Inductive Event :=
| EvGetAllHostedZones
| EvGetAllRRSets (zone_id : string)
| EvCommit (batch : ResourceRecordSets)
| EvSleep (interval : Py.Val)
| EvCreateZone (name : string) (vpc region : option string)
| EvDeleteHostedZone (zone_id : string).

Definition is_commit (e : Event) : bool :=
  match e with EvCommit _ => true | _ => false end.

Definition is_sleep (e : Event) : bool :=
  match e with EvSleep _ => true | _ => false end.

(** Events that change the provider's state. *)
Definition is_mutation (e : Event) : bool :=
  match e with
  | EvCommit _ | EvCreateZone _ _ _ | EvDeleteHostedZone _ => true
  | _ => false
  end.

(** Number of submissions and of backoff pauses in a trace. *)
Definition attempts (tr : list Event) : nat := length (List.filter is_commit tr).
Definition sleeps (tr : list Event) : nat := length (List.filter is_sleep tr).

(** ** [commit] *)

(** The two [split] lines that pull the error code out of [e.body]. *)
Definition error_code (body : string) : Res string :=
  match Py.item (Py.split body "<Code>") 1 with
  | Raise e => Raise e
  | Ok code => Py.item (Py.split code "</Code>") 0
  end.

Section commit.
Context {num : Py.Numeric}.

(** [replies k] is what the provider answers to the [k]-th call of
    [changes.commit()], counting from 0: a response, or an exception. *)
Variable replies : nat → Res string.
Variable changes : ResourceRecordSets.
Variable retry_interval : Py.Val.

(** The [while True] loop.  [retry] is the counter at the top of an
    iteration, [k] the number of submissions made so far and [tr] the
    trace so far.  The loop goes round again only when the decremented
    counter is not negative, which is what makes it terminate. *)
Equations? commit_loop (retry : Z) (k : nat) (tr : list Event) :
    list Event * Res string by wf (Z.to_nat retry) lt :=
commit_loop retry k tr with replies k => {
  | Ok result := (tr ++ [EvCommit changes], Ok result);
  | Raise (DNSServerError body) with error_code body => {
      | Raise e := (tr ++ [EvCommit changes], Raise e);
      | Ok code with decide (code ≠ "PriorRequestNotComplete" ∨ (retry - 1 < 0)%Z) => {
          | left _ := (tr ++ [EvCommit changes], Raise (DNSServerError body));
          | right Hgo with Py.sleep retry_interval => {
              | Raise e := (tr ++ [EvCommit changes], Raise e);
              | Ok _ := commit_loop (retry - 1) (S k)
                          (tr ++ [EvCommit changes; EvSleep retry_interval]) } } };
  | Raise e := (tr ++ [EvCommit changes], Raise e) }.
Proof. lia. Qed.

Definition commit : list Event * Res string := commit_loop 10 0 [].

End commit.

(** ** Parameters, provider and outcomes of [main] *)

Inductive State := st_list | st_present | st_absent.

Global Instance State_eq_dec : EqDecision State.
Proof. solve_decision. Defined.

(** The entries of [module.params] as [main] first reads them, plus the
    [region] returned by [get_ec2_creds].  [state] is restricted to its
    three choices and [overwrite] is a declared bool; [ttl], [value] and
    [retry_interval] have no declared type and arrive as given. *)
Record Params := {
  state_in : State;
  zone_in : string;
  ttl_in : Py.Val;
  record_in : option string;
  type_in : option string;
  value_in : Py.Val;
  retry_interval_in : Py.Val;
  vpc_in : option string;
  overwrite : option bool;
  region : option string
}.

(** An element of [results['ListHostedZonesResponse']['HostedZones']]. *)
Record HostedZone := {
  hz_Id : string;
  hz_Name : string
}.

(** A record set as listed by [conn.get_all_rrsets]. *)
Record RSet := {
  rset_name : string;
  rset_type : string;
  rset_ttl : Py.Val;
  rset_resource_records : list string
}.

(** The provider as one run of the module sees it.  The two listing
    calls are taken to return; [commit_replies] is as in [commit]. *)
Record Provider := {
  get_all_hosted_zones : list HostedZone;
  get_all_rrsets : string → list RSet;
  commit_replies : nat → Res string;
  created_zone_id : string
}.

(** The [record] dict once a record set has filled it. *)
Record RecordDict := {
  rec_zone : string;
  rec_type : string;
  rec_record : string;
  rec_ttl : Py.Val;
  rec_value : string;
  rec_values : list string
}.

(** How a run ends: one of the [module.exit_json] calls, a
    [module.fail_json] call, or an exception nobody catches.  The [set]
    of [exit_json_set] is [None] when the dict is still empty. *)
Inductive Outcome :=
| exit_json (changed : bool)
| exit_json_set (changed : bool) (set : option RecordDict)
| exit_json_id (changed : bool) (id : string)
| fail_json (msg : string)
| uncaught (e : Exn).

(** Straight-line code with early exits and a trace of provider calls. *)
Inductive Ctl (A : Type) :=
| Next (a : A)
| Stop (o : Outcome).
Arguments Next {A} a.
Arguments Stop {A} o.

Definition M (A : Type) : Type := list Event * Ctl A.

Definition halt {A} (o : Outcome) : M A := ([], Stop o).
Definition emit (e : Event) : M unit := ([e], Next ()).
Definition lift {A} (c : Ctl A) : M A := ([], c).

Global Instance M_ret : MRet M := λ A a, ([], Next a).

Global Instance M_bind : MBind M := λ A B k m,
  match m with
  | (tr, Next a) => let '(tr', r) := k a in (tr ++ tr', r)
  | (tr, Stop o) => (tr, Stop o)
  end.

Definition when_ (b : bool) (m : M unit) : M unit := if b then m else mret ().

(** ** The pieces of [main] *)

(** [if s[-1:] != '.': s += "."]. *)
Definition with_trailing_dot (s : string) : string :=
  if decide (Py.last_slice s ≠ ".") then s +:+ "." else s.

(** The [zones] dict: the loop over the hosted zones, assigning
    [zones[r53zone['Name']] = zone_id] in listing order. *)
Definition zone_id_of (r53zone : HostedZone) : string :=
  Py.replace (hz_Id r53zone) "/hostedzone/" "".

Definition zones_of (listing : list HostedZone) : gmap string string :=
  foldl (λ zones r53zone, <[hz_Name r53zone := zone_id_of r53zone]> zones) ∅ listing.

(** [value_list]: the empty tuple unless [value_in] is a non-empty [str]
    or a [list]. *)
Definition value_list (value_in : Py.Val) : Py.Val :=
  match value_in with
  | Py.Str s => if Py.truthy value_in then Py.List (Py.sorted (Py.split s ",")) else Py.Tuple []
  | Py.List l => Py.List (Py.sorted l)
  | _ => Py.Tuple []
  end.

(** The two [replace] calls that undo the octal escapes of [*] and [@]. *)
Definition decoded_name (rset : RSet) : string :=
  Py.replace (Py.replace (rset_name rset) "\052" "*") "\100" "@".

Definition matches (type_in record_in : string) (rset : RSet) : bool :=
  bool_decide (rset_type rset = type_in) && bool_decide (decoded_name rset = record_in).

Definition record_of (zone_in : string) (rset : RSet) : RecordDict :=
  {| rec_zone := zone_in;
     rec_type := rset_type rset;
     rec_record := decoded_name rset;
     rec_ttl := rset_ttl rset;
     rec_value := Py.join "," (Py.sorted (rset_resource_records rset));
     rec_values := Py.sorted (rset_resource_records rset) |}.

Section main.
Context {num : Py.Numeric}.

(** The test guarding [module.exit_json(changed=False)] inside the
    loop; [and] evaluates [int(record['ttl'])] only when the value
    lists are equal. *)
Definition up_to_date (vl ttl : Py.Val) (st : State) (rset : RSet) : Res bool :=
  if Py.eq vl (Py.List (Py.sorted (rset_resource_records rset))) then
    match Py.int (rset_ttl rset) with
    | Raise e => Raise e
    | Ok n => Ok (Py.eq (Py.Int n) ttl && bool_decide (st = st_present))
    end
  else Ok false.

(** The loop [for rset in sets], carrying [found_record] and [record]. *)
Fixpoint scan (zone type record : string) (vl ttl : Py.Val) (st : State)
    (sets : list RSet) (found_record : bool) (rec : option RecordDict) :
    Ctl (bool * option RecordDict) :=
  match sets with
  | [] => Next (found_record, rec)
  | rset :: sets' =>
      if matches type record rset then
        match up_to_date vl ttl st rset with
        | Raise e => Stop (uncaught e)
        | Ok true => Stop (exit_json false)
        | Ok false => scan zone type record vl ttl st sets' true (Some (record_of zone rset))
        end
      else scan zone type record vl ttl st sets' found_record rec
  end.

(** What [main] does once the record sets have been scanned, up to the
    call of [commit]: report, stop, or fill a batch. *)
Definition changes_for (p : Params) (zone_id type record : string) (vl : Py.Val)
    (found_record : bool) (rec : option RecordDict) : M ResourceRecordSets :=
  when_ (bool_decide (state_in p = st_list)) (halt (exit_json_set false rec));;
  when_ (bool_decide (state_in p = st_absent) && negb found_record)
    (halt (exit_json false));;
  let changes := {| hosted_zone_id := zone_id; changes := [] |} in
  changes ← (if bool_decide (state_in p = st_present) && found_record then
               if negb (default false (overwrite p)) then
                 halt (fail_json
                   "Record already exists with different value. Set 'overwrite' to replace it")
               else
                 match rec with
                 | None => halt (uncaught KeyError)
                 | Some r =>
                     let '(changes, change) :=
                       add_change changes DELETE record type (rec_ttl r) in
                     mret (add_values changes change (rec_values r))
                 end
             else mret changes);
  if bool_decide (state_in p = st_present ∨ state_in p = st_absent) then
    let command := if bool_decide (state_in p = st_present) then CREATE else DELETE in
    let '(changes, change) := add_change changes command record type (ttl_in p) in
    mret (add_values changes change (Py.items vl))
  else mret changes.

(** The record branch of [main] up to the call of [commit]: either the
    run has ended, or a batch is ready to be submitted. *)
Definition build_changes (p : Params) (conn : Provider) (zones : gmap string string)
    (zone record : string) : M ResourceRecordSets :=
  zone_id ← match zones !! zone with
            | None => halt (fail_json ("Zone " +:+ zone +:+ " does not exist in Route53"))
            | Some id => mret id
            end;
  let vl := value_list (value_in p) in
  let record := with_trailing_dot record in
  type ← match type_in p with
         | Some t => if decide (t = "")
                     then halt (fail_json "parameter 'type' required when 'record' is provided")
                     else mret t
         | None => halt (fail_json "parameter 'type' required when 'record' is provided")
         end;
  when_ (bool_decide (state_in p = st_present ∨ state_in p = st_absent)
         && negb (Py.truthy (value_in p)))
    (halt (fail_json
       "parameter 'value' required for present/absent when 'record' is provided"));;
  emit (EvGetAllRRSets zone_id);;
  fr ← lift (scan zone type record vl (ttl_in p) (state_in p)
               (get_all_rrsets conn zone_id) false None);
  changes_for p zone_id type record vl fr.1 fr.2.

(** The text between the [Message] tags of an error body. *)
Definition error_message (body : string) : Res string :=
  match Py.item (Py.split body "<Message>") 1 with
  | Raise e => Raise e
  | Ok txt => Py.item (Py.split txt "</Message>") 0
  end.

(** How [main] ends after [commit]: [exit_json(changed=True)] when it
    returns, [fail_json] with the provider's message when it raises a
    [DNSServerError]; any other exception is not caught. *)
Definition commit_outcome (r : Res string) : Outcome :=
  match r with
  | Ok _ => exit_json true
  | Raise (DNSServerError body) =>
      match error_message body with
      | Ok txt => fail_json txt
      | Raise e => uncaught e
      end
  | Raise e => uncaught e
  end.

Definition submit (p : Params) (conn : Provider) (changes : ResourceRecordSets) : M unit :=
  let '(tr, r) := commit (commit_replies conn) changes (retry_interval_in p) in
  (tr, Stop (commit_outcome r)).

(** The hosted-zone branch of [main]. *)
Definition zone_operation (p : Params) (conn : Provider) (zones : gmap string string)
    (zone : string) : M unit :=
  match state_in p with
  | st_present =>
      match zones !! zone with
      | Some _ => halt (exit_json false)
      | None =>
          match vpc_in p with
          | Some vpc =>
              if decide (vpc = "") then
                emit (EvCreateZone zone None None);;
                halt (exit_json_id true (created_zone_id conn))
              else
                match region p with
                | Some r =>
                    if decide (r = "") then
                      halt (fail_json "parameter 'region' required when 'vpc_in' is provided")
                    else
                      emit (EvCreateZone zone (Some vpc) (Some r));;
                      halt (exit_json_id true (created_zone_id conn))
                | None =>
                    halt (fail_json "parameter 'region' required when 'vpc_in' is provided")
                end
          | None =>
              emit (EvCreateZone zone None None);;
              halt (exit_json_id true (created_zone_id conn))
          end
      end
  | st_absent =>
      match zones !! zone with
      | Some zone_id => emit (EvDeleteHostedZone zone_id);; halt (exit_json true)
      | None => halt (exit_json false)
      end
  | st_list => halt (fail_json ("Zone " +:+ zone +:+ " does not exist in Route53"))
  end.

Definition main_body (p : Params) (conn : Provider) : M unit :=
  let zone := with_trailing_dot (zone_in p) in
  emit EvGetAllHostedZones;;
  let zones := zones_of (get_all_hosted_zones conn) in
  match record_in p with
  | Some record =>
      if decide (record = "") then zone_operation p conn zones zone
      else
        changes ← build_changes p conn zones zone record;
        submit p conn changes
  | None => zone_operation p conn zones zone
  end.

(** A run of the module: the provider calls made, and how it ended.
    Every path of [main_body] ends in a [Stop] (see [main_body_stops]);
    the other case is never taken. *)
Definition main (p : Params) (conn : Provider) : list Event * Outcome :=
  match main_body p conn with
  | (tr, Stop o) => (tr, o)
  | (tr, Next _) => (tr, exit_json true)
  end.

End main.

(** ** Vocabulary of the properties *)

Global Instance Exn_eq_dec : EqDecision Exn.
Proof. solve_decision. Defined.

Global Instance Res_eq_dec `{EqDecision A} : EqDecision (Res A).
Proof. solve_decision. Defined.

(** A reply is transient when it is a [DNSServerError] whose code reads
    [PriorRequestNotComplete]. *)
Definition is_transient (reply : Res string) : bool :=
  match reply with
  | Raise (DNSServerError body) =>
      bool_decide (error_code body = Ok "PriorRequestNotComplete")
  | _ => false
  end.

(** The trace of [n] failed submissions, each followed by a pause, and
    one last submission. *)
Definition retry_trace (batch : ResourceRecordSets) (interval : Py.Val) (n : nat) : list Event :=
  concat (replicate n [EvCommit batch; EvSleep interval]) ++ [EvCommit batch].

(** The last record set of a listing that matches the desired pair. *)
Definition last_match (type record : string) (sets : list RSet) : option RSet :=
  last (filter (λ rset, matches type record rset) sets).

(** The last hosted zone of a listing that bears a given name. *)
Definition last_zone (name : string) (listing : list HostedZone) : option HostedZone :=
  last (filter (λ z, hz_Name z = name) listing).

(** The values a caller supplies through [value]. *)
Definition supplied_values (value_in : Py.Val) : list string :=
  match value_in with
  | Py.Str s => Py.split s ","
  | Py.List l => l
  | _ => []
  end.

Fixpoint comma_free (s : string) : bool :=
  match s with
  | EmptyString => true
  | String c s' => negb (bool_decide (c = ","%char)) && comma_free s'
  end.

(** A record operation that passes the checks made before the record
    sets are listed: the record name [r] is given, the zone is known
    under [zone_id], a type is given, and so is a value unless the state
    is [list]. *)
Record Validated (p : Params) (conn : Provider) (zone_id type r : string) : Prop := {
  val_record : record_in p = Some r ∧ r ≠ "";
  val_zone :
    zones_of (get_all_hosted_zones conn) !! with_trailing_dot (zone_in p) = Some zone_id;
  val_type : type_in p = Some type ∧ type ≠ "";
  val_value : state_in p ≠ st_list → Py.truthy (value_in p) = true
}.

(** An existing record set differs from the desired record in its
    values or in its TTL. *)
Definition Differs {num : Py.Numeric} (p : Params) (rset : RSet) : Prop :=
  Py.eq (value_list (value_in p)) (Py.List (Py.sorted (rset_resource_records rset))) = false
  ∨ ∃ n, Py.int (rset_ttl rset) = Ok n ∧ Py.eq (Py.Int n) (ttl_in p) = false.

(** The loop over the record sets runs to its end: no matching set
    passes the up-to-date test, and none makes it raise. *)
Definition RunsThrough {num : Py.Numeric} (p : Params) (type record : string)
    (sets : list RSet) : Prop :=
  ∀ rset, rset ∈ sets → matches type record rset = true →
    up_to_date (value_list (value_in p)) (ttl_in p) (state_in p) rset = Ok false.

(** The first matching record set of a listing: what a matcher that
    stops at the first hit would return. *)
Definition first_match (type record : string) (sets : list RSet) : option RSet :=
  head (filter (λ rset, matches type record rset) sets).

Definition with_overwrite (o : option bool) (p : Params) : Params :=
  {| state_in := state_in p; zone_in := zone_in p; ttl_in := ttl_in p;
     record_in := record_in p; type_in := type_in p; value_in := value_in p;
     retry_interval_in := retry_interval_in p; vpc_in := vpc_in p;
     overwrite := o; region := region p |}.

(** [sep in s]: the substring test. *)
Fixpoint contains (sep s : string) : bool :=
  match s with
  | EmptyString => String.prefix sep s
  | String _ s' => String.prefix sep s || contains sep s'
  end.

(** The provider with another answer to [get_all_rrsets]. *)
Definition with_rrsets (sets : string → list RSet) (conn : Provider) : Provider :=
  {| get_all_hosted_zones := get_all_hosted_zones conn;
     get_all_rrsets := sets;
     commit_replies := commit_replies conn;
     created_zone_id := created_zone_id conn |}.

(** The parameters with other zone and record names. *)
Definition with_names (zone : string) (record : option string) (p : Params) : Params :=
  {| state_in := state_in p; zone_in := zone; ttl_in := ttl_in p;
     record_in := record; type_in := type_in p; value_in := value_in p;
     retry_interval_in := retry_interval_in p; vpc_in := vpc_in p;
     overwrite := overwrite p; region := region p |}.

(** Two listed record sets that differ at most in the order of their
    values. *)
Definition same_up_to_order (r1 r2 : RSet) : Prop :=
  rset_name r1 = rset_name r2 ∧ rset_type r1 = rset_type r2
  ∧ rset_ttl r1 = rset_ttl r2
  ∧ rset_resource_records r1 ≡ₚ rset_resource_records r2.

(** The [changed] flag of a run that ends in [exit_json]. *)
Definition changed_flag (o : Outcome) : option bool :=
  match o with
  | exit_json c | exit_json_set c _ | exit_json_id c _ => Some c
  | fail_json _ | uncaught _ => None
  end.

(** A record operation: [record] is given and not empty. *)
Definition record_given (p : Params) (r : string) : Prop :=
  record_in p = Some r ∧ r ≠ "".

(** [if x:] on an optional string. *)
Definition given (o : option string) : bool :=
  match o with
  | Some s => negb (bool_decide (s = ""))
  | None => false
  end.

(** A hosted zone of that name is in the listing. *)
Definition listed (name : string) (listing : list HostedZone) : Prop :=
  ∃ z, z ∈ listing ∧ hz_Name z = name.

(** A computation that changes nothing at the provider and does not
    report a change. *)
Definition Quiet {A} (m : M A) : Prop :=
  Forall (λ e, is_mutation e = false) m.1
  ∧ match m.2 with
    | Stop o => changed_flag o ≠ Some true
    | Next _ => True
    end.

(** A computation that ends the run. *)
Definition Stops {A} (m : M A) : Prop := ∃ tr o, m = (tr, Stop o).

Definition conflict_message : string :=
  "Record already exists with different value. Set 'overwrite' to replace it".

(** ** Sample inputs *)

Module Sample.

(** An error body of the transient kind, and one of another kind. *)
Definition busy : string :=
  "<ErrorResponse><Error><Type>Sender</Type><Code>PriorRequestNotComplete</Code><Message>The request was rejected because Route 53 was still processing a prior request.</Message></Error><RequestId>1</RequestId></ErrorResponse>".

Definition invalid : string :=
  "<ErrorResponse><Error><Type>Sender</Type><Code>InvalidChangeBatch</Code><Message>Tried to create resource record set but it already exists</Message></Error><RequestId>2</RequestId></ErrorResponse>".

Definition always_busy : nat → Res string := λ _, Raise (DNSServerError busy).
Definition always_invalid : nat → Res string := λ _, Raise (DNSServerError invalid).

Definition batch : ResourceRecordSets :=
  {| hosted_zone_id := "Z1";
     changes := [{| ch_action := CREATE; ch_name := "new.foo.com."; ch_type := "A";
                    ch_ttl := Py.Int 7200; ch_values := ["1.1.1.1"] |}] |}.

Definition zone_listing : list HostedZone :=
  [{| hz_Id := "/hostedzone/Z1"; hz_Name := "foo.com." |}].

Definition provider (sets : list RSet) (replies : nat → Res string) : Provider :=
  {| get_all_hosted_zones := zone_listing;
     get_all_rrsets := λ _, sets;
     commit_replies := replies;
     created_zone_id := "Z9" |}.

Definition params (st : State) (ttl value : Py.Val) (ow : option bool) : Params :=
  {| state_in := st; zone_in := "foo.com"; ttl_in := ttl;
     record_in := Some "new.foo.com"; type_in := Some "A"; value_in := value;
     retry_interval_in := Py.Int 500; vpc_in := None; overwrite := ow;
     region := None |}.

Definition rset (ttl : Py.Val) (values : list string) : RSet :=
  {| rset_name := "new.foo.com."; rset_type := "A"; rset_ttl := ttl;
     rset_resource_records := values |}.

Definition replies_ok : nat → Res string := λ _, Ok "<ChangeResourceRecordSetsResponse/>".

(** The desired record [new.foo.com. A 7200 1.1.1.1,2.2.2.2], with the
    TTL given as an integer and as a string. *)
Definition desired (st : State) (ow : option bool) : Params :=
  params st (Py.Int 7200) (Py.Str "2.2.2.2,1.1.1.1") ow.

Definition desired_str_ttl (ow : option bool) : Params :=
  params st_present (Py.Str "7200") (Py.Str "2.2.2.2,1.1.1.1") ow.

(** Existing record sets: one equal to the desired record, one with
    another value and TTL, and two that share name and type. *)
Definition same : RSet := rset (Py.Str "7200") ["1.1.1.1"; "2.2.2.2"].
Definition other : RSet := rset (Py.Str "300") ["9.9.9.9"].
Definition first_set : RSet := rset (Py.Str "300") ["1.1.1.1"].
Definition second_set : RSet := rset (Py.Str "600") ["2.2.2.2"].

(** A public and a private hosted zone of the same name. *)
Definition twin_zones : list HostedZone :=
  [{| hz_Id := "/hostedzone/Z1"; hz_Name := "foo.com." |};
   {| hz_Id := "/hostedzone/Z2"; hz_Name := "foo.com." |}].

Definition twin_provider (sets : list RSet) : Provider :=
  {| get_all_hosted_zones := twin_zones;
     get_all_rrsets := λ _, sets;
     commit_replies := replies_ok;
     created_zone_id := "Z9" |}.

(** A record set listed without a TTL. *)
Definition no_ttl_set : RSet := rset Py.None_ ["1.1.1.1"; "2.2.2.2"].

(** A provider that knows no hosted zone. *)
Definition empty_provider : Provider :=
  {| get_all_hosted_zones := [];
     get_all_rrsets := λ _, [];
     commit_replies := replies_ok;
     created_zone_id := "Z9" |}.

(** Parameters of a hosted-zone operation. *)
Definition zone_params (st : State) (vpc reg : option string) : Params :=
  {| state_in := st; zone_in := "foo.com"; ttl_in := Py.Int 3600;
     record_in := None; type_in := None; value_in := Py.None_;
     retry_interval_in := Py.Int 500; vpc_in := vpc; overwrite := None;
     region := reg |}.

End Sample.

(** ** The builtins on concrete inputs *)

Example split_values : Py.split "2.2.2.2,1.1.1.1" "," = ["2.2.2.2"; "1.1.1.1"].
Proof. reflexivity. Qed.

Example split_keeps_empty_pieces : Py.split "a,,b," "," = ["a"; ""; "b"; ""].
Proof. reflexivity. Qed.

Example split_empty_string : Py.split "" "," = [""].
Proof. reflexivity. Qed.

Example split_without_overlap : Py.split "aaa" "aa" = [""; "a"].
Proof. reflexivity. Qed.

Example replace_every_occurrence : Py.replace "\052.a.\052" "\052" "*" = "*.a.*".
Proof. reflexivity. Qed.

Example sorted_by_character_code :
  Py.sorted ["b"; "a"; "B"; "ab"; ""] = [""; "B"; "a"; "ab"; "b"].
Proof. reflexivity. Qed.

Example decoded_wildcard :
  decoded_name {| rset_name := "\052.foo.com."; rset_type := "A";
                  rset_ttl := Py.Str "300"; rset_resource_records := [] |}
  = "*.foo.com.".
Proof. reflexivity. Qed.

Example decoded_at_sign :
  decoded_name {| rset_name := "\100.foo.com."; rset_type := "A";
                  rset_ttl := Py.Str "300"; rset_resource_records := [] |}
  = "@.foo.com.".
Proof. reflexivity. Qed.

Example error_code_busy : error_code Sample.busy = Ok "PriorRequestNotComplete".
Proof. reflexivity. Qed.

Example error_code_without_tag : error_code "503 Service Unavailable" = Raise IndexError.
Proof. reflexivity. Qed.

(** ** Every run of [main] ends *)

Section totality.
Context {num : Py.Numeric}.

Lemma bind_stops {A B} (m : M A) (k : A → M B) :
  (∀ a, Stops (k a)) → Stops (m ≫= k).
Proof.
  intros Hk. destruct m as [tr [a|o]]; unfold mbind, M_bind.
  - destruct (Hk a) as (tr' & o & ->). by eexists _, _.
  - by eexists _, _.
Qed.

Lemma zone_operation_stops p conn zones zone : Stops (zone_operation p conn zones zone).
Proof.
  unfold zone_operation.
  repeat (case_match; try (by eexists _, _));
    apply bind_stops; intros; by eexists _, _.
Qed.

Lemma submit_stops p conn batch : Stops (submit p conn batch).
Proof. unfold submit. destruct (commit _ _ _). by eexists _, _. Qed.

(** Every run ends in one of the [exit_json] or [fail_json] calls or in
    an exception. *)
Lemma main_body_stops p conn : Stops (main_body p conn).
Proof.
  unfold main_body. apply bind_stops. intros _.
  repeat case_match; try apply zone_operation_stops.
  apply bind_stops. intros batch. apply submit_stops.
Qed.
End totality.

(** ** Properties of [commit] *)

Section commit_facts.
Context {num : Py.Numeric}.
Variable replies : nat → Res string.
Variable batch : ResourceRecordSets.
Variable interval : Py.Val.

Lemma retry_trace_S n :
  retry_trace batch interval (S n)
  = [EvCommit batch; EvSleep interval] ++ retry_trace batch interval n.
Proof. reflexivity. Qed.

Lemma attempts_retry_trace n : attempts (retry_trace batch interval n) = S n.
Proof.
  induction n as [|n IH]; [reflexivity|].
  rewrite retry_trace_S. unfold attempts in *. simpl. by rewrite IH.
Qed.

Lemma sleeps_retry_trace n : sleeps (retry_trace batch interval n) = n.
Proof.
  induction n as [|n IH]; [reflexivity|].
  rewrite retry_trace_S. unfold sleeps in *. simpl. by rewrite IH.
Qed.

Lemma is_transient_inv reply :
  is_transient reply = true →
  ∃ body, reply = Raise (DNSServerError body)
          ∧ error_code body = Ok "PriorRequestNotComplete".
Proof.
  destruct reply as [?|[]]; simpl; try discriminate.
  intros Hc. apply bool_decide_eq_true in Hc. eauto.
Qed.

(** With [n] retries left and nothing but transient errors, the loop
    submits [n + 1] times, pauses [n] times and re-raises the last
    error. *)
Lemma commit_loop_busy n : ∀ k tr,
  (∀ j, (k ≤ j ≤ k + n)%nat → is_transient (replies j) = true) →
  Py.sleep interval = Ok () →
  commit_loop replies batch interval (Z.of_nat n) k tr
  = (tr ++ retry_trace batch interval n, replies (k + n)%nat).
Proof.
  induction n as [|n IH]; intros k tr Hbusy Hsleep.
  - destruct (is_transient_inv _ (Hbusy k ltac:(lia))) as (body & Hk & Hcode).
    rewrite commit_loop_equation_1, Hk. simpl. rewrite Hcode. simpl.
    rewrite Nat.add_0_r. rewrite Hk. reflexivity.
  - destruct (is_transient_inv _ (Hbusy k ltac:(lia))) as (body & Hk & Hcode).
    rewrite commit_loop_equation_1, Hk. cbn -[Z.of_nat retry_trace]. rewrite Hcode.
    cbn -[Z.of_nat retry_trace].
    destruct (decide _) as [[Hne|Hlt]|Hno]; [done|lia|].
    cbn -[Z.of_nat retry_trace]. rewrite Hsleep. cbn -[Z.of_nat retry_trace].
    replace (Z.of_nat (S n) - 1)%Z with (Z.of_nat n) by lia.
    rewrite IH; [|intros; apply Hbusy; lia|done].
    rewrite retry_trace_S, <- app_assoc. do 2 f_equal. lia.
Qed.

(** Whatever the replies, the trace of the loop is a run of failed
    submissions with pauses and one last submission, and every
    submission that was followed by a pause had a transient reply. *)
Lemma commit_loop_retried retry k tr :
  ∃ n, (commit_loop replies batch interval retry k tr).1
       = tr ++ retry_trace batch interval n
     ∧ ∀ j, (j < n)%nat → is_transient (replies (k + j)%nat) = true.
Proof.
  funelim (commit_loop replies batch interval retry k tr);
    try (exists 0%nat; split; [reflexivity | intros; lia]).
  match goal with IH : ∃ _, _ |- _ => destruct IH as (m & Htr & Hbusy) end.
  exists (S m). split.
  - rewrite Htr, retry_trace_S, <- app_assoc. reflexivity.
  - intros [|j] Hj.
    + rewrite Nat.add_0_r.
      match goal with Hr : replies k = _ |- _ => rewrite Hr end. simpl.
      match goal with Hc : error_code body = _ |- _ => rewrite Hc end.
      apply bool_decide_eq_true. f_equal.
      destruct (decide (code = "PriorRequestNotComplete")); [done|].
      exfalso. apply Hgo. by left.
    + replace (k + S j)%nat with (S k + j)%nat by lia. apply Hbusy. lia.
Qed.

(** A first reply that is an error of another kind ends [commit] on
    the spot. *)
Lemma commit_first_error_other body :
  replies 0%nat = Raise (DNSServerError body) →
  error_code body ≠ Ok "PriorRequestNotComplete" →
  commit replies batch interval
  = ([EvCommit batch],
     Raise (match error_code body with Ok _ => DNSServerError body | Raise e => e end)).
Proof.
  intros H0 Hcode. unfold commit.
  rewrite commit_loop_equation_1, H0. simpl.
  destruct (error_code body) as [code|e] eqn:He; simpl; [|done].
  destruct (decide _) as [Hyes|Hno]; [done|].
  exfalso. apply Hcode. f_equal.
  destruct (decide (code = "PriorRequestNotComplete")); [done|].
  exfalso. apply Hno. by left.
Qed.

End commit_facts.

(** C1, as amended.  When every submission of a batch raises the
    transient [PriorRequestNotComplete] error (and the pause itself does
    not fail), [commit] re-raises the error after exactly 11 submissions:
    the first one and 10 retries, with 10 pauses in between. *)
Theorem commit_always_transient_eleven_attempts {num : Py.Numeric}
    (replies : nat → Res string) (batch : ResourceRecordSets) (interval : Py.Val) :
  (∀ k, (k ≤ 10)%nat → is_transient (replies k) = true) →
  Py.sleep interval = Ok () →
  ∃ body,
    replies 10%nat = Raise (DNSServerError body)
    ∧ commit replies batch interval
      = (retry_trace batch interval 10, Raise (DNSServerError body))
    ∧ attempts (commit replies batch interval).1 = 11%nat
    ∧ sleeps (commit replies batch interval).1 = 10%nat.
Proof.
  intros Hbusy Hsleep.
  destruct (is_transient_inv _ (Hbusy 10%nat ltac:(lia))) as (body & H10 & _).
  assert (Hrun : commit replies batch interval
                 = (retry_trace batch interval 10, Raise (DNSServerError body))).
  { unfold commit. change 10%Z with (Z.of_nat 10).
    rewrite commit_loop_busy;
      [change (0 + 10)%nat with 10%nat; by rewrite H10| |done].
    intros j Hj. apply Hbusy. lia. }
  exists body. rewrite Hrun.
  split_and!; first [done | apply attempts_retry_trace | apply sleeps_retry_trace].
Qed.

Lemma commit_always_transient_eleven_attempts_witness :
  ∃ body,
    Sample.always_busy 10%nat = Raise (DNSServerError body)
    ∧ commit (num:=Py.decimal) Sample.always_busy Sample.batch (Py.Int 500)
      = (retry_trace Sample.batch (Py.Int 500) 10, Raise (DNSServerError body))
    ∧ attempts (commit (num:=Py.decimal) Sample.always_busy Sample.batch (Py.Int 500)).1
      = 11%nat
    ∧ sleeps (commit (num:=Py.decimal) Sample.always_busy Sample.batch (Py.Int 500)).1
      = 10%nat.
Proof.
  apply (commit_always_transient_eleven_attempts (num:=Py.decimal)
           Sample.always_busy Sample.batch (Py.Int 500)).
  - intros k _. vm_compute. reflexivity.
  - vm_compute. reflexivity.
Defined.

(** C1 as stated fails: against a provider that is always busy, [commit]
    gives up after 11 submissions, not 10. *)
Lemma commit_always_transient_not_ten_attempts :
  (∀ k, is_transient (Sample.always_busy k) = true)
  ∧ (commit (num:=Py.decimal) Sample.always_busy Sample.batch (Py.Int 500)).2
    = Raise (DNSServerError Sample.busy)
  ∧ attempts (commit (num:=Py.decimal) Sample.always_busy Sample.batch (Py.Int 500)).1
    ≠ 10%nat.
Proof.
  split_and!.
  - intros k. vm_compute. reflexivity.
  - vm_compute. reflexivity.
  - vm_compute. discriminate.
Qed.

(** C4.  Only a transient reply is ever followed by a pause and another
    submission; in particular, when the first submission raises a
    provider error with any other code, [commit] raises at once: one
    submission, no pause. *)
Theorem commit_retries_transient_only {num : Py.Numeric}
    (replies : nat → Res string) (batch : ResourceRecordSets) (interval : Py.Val) :
  (∀ j, (S j < attempts (commit replies batch interval).1)%nat →
        is_transient (replies j) = true)
  ∧ (∀ body,
       replies 0%nat = Raise (DNSServerError body) →
       error_code body ≠ Ok "PriorRequestNotComplete" →
       (∃ e, commit replies batch interval = ([EvCommit batch], Raise e))
       ∧ attempts (commit replies batch interval).1 = 1%nat
       ∧ sleeps (commit replies batch interval).1 = 0%nat).
Proof.
  split.
  - unfold commit.
    destruct (commit_loop_retried replies batch interval 10 0 []) as (n & Htr & Hbusy).
    rewrite Htr. simpl. rewrite attempts_retry_trace. intros j Hj.
    apply (Hbusy j). lia.
  - intros body H0 Hcode.
    rewrite (commit_first_error_other replies batch interval body H0 Hcode).
    split_and!; [eauto|reflexivity|reflexivity].
Qed.

Lemma commit_retries_transient_only_witness :
  (∃ e, commit (num:=Py.decimal) Sample.always_invalid Sample.batch (Py.Int 500)
        = ([EvCommit Sample.batch], Raise e))
  ∧ attempts (commit (num:=Py.decimal) Sample.always_invalid Sample.batch (Py.Int 500)).1
    = 1%nat
  ∧ sleeps (commit (num:=Py.decimal) Sample.always_invalid Sample.batch (Py.Int 500)).1
    = 0%nat.
Proof.
  apply (proj2 (commit_retries_transient_only (num:=Py.decimal)
                  Sample.always_invalid Sample.batch (Py.Int 500)) Sample.invalid).
  - reflexivity.
  - vm_compute. discriminate.
Defined.

(** ** Properties of the record branch of [main] *)

Section main_facts.
Context {num : Py.Numeric}.

Lemma last_match_cons type record rset sets :
  last_match type record (rset :: sets)
  = match last_match type record sets with
    | Some x => Some x
    | None => if matches type record rset then Some rset else None
    end.
Proof.
  unfold last_match. rewrite filter_cons.
  destruct (matches type record rset); simpl.
  - apply last_cons.
  - by destruct (last _).
Qed.

Lemma scan_runs_through zone type record vl ttl st sets : ∀ found rec,
  (∀ rset, rset ∈ sets → matches type record rset = true →
     up_to_date vl ttl st rset = Ok false) →
  scan zone type record vl ttl st sets found rec
  = Next (found || bool_decide (is_Some (last_match type record sets)),
          match last_match type record sets with
          | Some rset => Some (record_of zone rset)
          | None => rec
          end).
Proof.
  induction sets as [|rset sets IH]; intros found rec Hrun.
  - simpl. by rewrite orb_false_r.
  - simpl. rewrite last_match_cons.
    destruct (matches type record rset) eqn:Hm.
    + rewrite (Hrun rset) by (done || apply list_elem_of_here).
      rewrite IH by (intros; apply Hrun; [by apply list_elem_of_further|done]).
      destruct (last_match type record sets); simpl; by rewrite ?orb_true_r.
    + rewrite IH by (intros; apply Hrun; [by apply list_elem_of_further|done]).
      destruct (last_match type record sets); simpl; done.
Qed.

Lemma scan_stops zone type record vl ttl st l1 rset l2 : ∀ found rec,
  (∀ x, x ∈ l1 → matches type record x = true → up_to_date vl ttl st x = Ok false) →
  matches type record rset = true →
  up_to_date vl ttl st rset = Ok true →
  scan zone type record vl ttl st (l1 ++ rset :: l2) found rec = Stop (exit_json false).
Proof.
  induction l1 as [|x l1 IH]; intros found rec Hrun Hm Hup; simpl.
  - by rewrite Hm, Hup.
  - destruct (matches type record x) eqn:Hx.
    + rewrite (Hrun x) by (done || apply list_elem_of_here).
      apply IH; [|done|done]. intros; apply Hrun; [by apply list_elem_of_further|done].
    + apply IH; [|done|done]. intros; apply Hrun; [by apply list_elem_of_further|done].
Qed.

(** [last_match] picks a matching record set after which no other set
    of the listing matches. *)
Lemma last_match_Some type record sets rset :
  last_match type record sets = Some rset →
  ∃ l1 l2, sets = l1 ++ rset :: l2
           ∧ matches type record rset = true
           ∧ ∀ x, x ∈ l2 → matches type record x = false.
Proof.
  induction sets as [|y sets IH]; [done|].
  rewrite last_match_cons.
  destruct (last_match type record sets) as [z|] eqn:Hlast.
  - intros [= ->]. destruct (IH eq_refl) as (l1 & l2 & -> & Hm & Hno).
    by exists (y :: l1), l2.
  - destruct (matches type record y) eqn:Hy; [|done].
    intros [= ->]. exists [], sets. split_and!; [done|done|].
    intros x Hx. destruct (matches type record x) eqn:Hmx; [|done].
    exfalso. unfold last_match in Hlast. apply last_None in Hlast.
    assert (x ∈ filter (λ rset0, matches type record rset0) sets) as Hin.
    { apply list_elem_of_filter. split; [by rewrite Hmx|done]. }
    rewrite Hlast in Hin. by apply not_elem_of_nil in Hin.
Qed.

Lemma differs_not_up_to_date p rset :
  Differs p rset →
  up_to_date (value_list (value_in p)) (ttl_in p) (state_in p) rset = Ok false.
Proof.
  unfold up_to_date. intros [Hv|(n & Hint & Httl)].
  - by rewrite Hv.
  - destruct (Py.eq _ (Py.List _)); [|done]. by rewrite Hint, Httl.
Qed.

Lemma all_differ_runs_through p type record sets :
  (∀ rset, rset ∈ sets → matches type record rset = true → Differs p rset) →
  RunsThrough p type record sets.
Proof. intros Hd rset Hin Hm. apply differs_not_up_to_date. by apply Hd. Qed.

Lemma M_bind_ret {A B} (a : A) (k : A → M B) : (mret a ≫= k) = k a.
Proof. unfold mret, mbind, M_ret, M_bind. by destruct (k a). Qed.

Lemma M_bind_lift_next {A B} (a : A) (k : A → M B) : (lift (Next a) ≫= k) = k a.
Proof. apply M_bind_ret. Qed.

Lemma build_changes_listed p conn zone_id type r :
  Validated p conn zone_id type r →
  build_changes p conn (zones_of (get_all_hosted_zones conn))
    (with_trailing_dot (zone_in p)) r
  = (emit (EvGetAllRRSets zone_id);;
     fr ← lift (scan (with_trailing_dot (zone_in p)) type (with_trailing_dot r)
                  (value_list (value_in p)) (ttl_in p) (state_in p)
                  (get_all_rrsets conn zone_id) false None);
     changes_for p zone_id type (with_trailing_dot r) (value_list (value_in p))
       fr.1 fr.2).
Proof.
  intros [[Hr Hr0] Hz [Ht Ht0] Hv]. unfold build_changes.
  rewrite Hz, M_bind_ret, Ht.
  destruct (decide (type = "")) as [|_]; [done|]. rewrite M_bind_ret.
  assert (bool_decide (state_in p = st_present ∨ state_in p = st_absent)
          && negb (Py.truthy (value_in p)) = false) as ->.
  { destruct (state_in p); [done| |]; by rewrite Hv. }
  unfold when_ at 1. by rewrite M_bind_ret.
Qed.

Lemma build_changes_validated p conn zone_id type r :
  Validated p conn zone_id type r →
  RunsThrough p type (with_trailing_dot r) (get_all_rrsets conn zone_id) →
  build_changes p conn (zones_of (get_all_hosted_zones conn))
    (with_trailing_dot (zone_in p)) r
  = (emit (EvGetAllRRSets zone_id);;
     changes_for p zone_id type (with_trailing_dot r) (value_list (value_in p))
       (bool_decide (is_Some (last_match type (with_trailing_dot r)
                                (get_all_rrsets conn zone_id))))
       (record_of (with_trailing_dot (zone_in p))
          <$> last_match type (with_trailing_dot r) (get_all_rrsets conn zone_id))).
Proof.
  intros Hval Hrun. rewrite (build_changes_listed _ _ _ _ _ Hval).
  rewrite scan_runs_through by exact Hrun. rewrite M_bind_lift_next.
  simpl. by destruct (last_match _ _ _).
Qed.

Lemma main_record p conn zone_id type r :
  Validated p conn zone_id type r →
  main p conn
  = match (emit EvGetAllHostedZones;;
           changes ← build_changes p conn (zones_of (get_all_hosted_zones conn))
                       (with_trailing_dot (zone_in p)) r;
           submit p conn changes) with
    | (tr, Stop o) => (tr, o)
    | (tr, Next _) => (tr, exit_json true)
    end.
Proof.
  intros [[Hr Hr0] _ _ _]. unfold main, main_body. rewrite Hr.
  by destruct (decide (r = "")).
Qed.

Lemma present_conflict p conn zone_id type r rset :
  Validated p conn zone_id type r →
  state_in p = st_present →
  default false (overwrite p) = false →
  last_match type (with_trailing_dot r) (get_all_rrsets conn zone_id) = Some rset →
  (∀ rset', rset' ∈ get_all_rrsets conn zone_id →
     matches type (with_trailing_dot r) rset' = true → Differs p rset') →
  main p conn
  = ([EvGetAllHostedZones; EvGetAllRRSets zone_id], fail_json conflict_message).
Proof.
  intros Hval Hst How Hlm Hdiff.
  rewrite (main_record _ _ _ _ _ Hval).
  rewrite (build_changes_validated _ _ _ _ _ Hval)
    by by apply all_differ_runs_through.
  rewrite Hlm. unfold changes_for. rewrite Hst, How. reflexivity.
Qed.

Lemma alter_last {A} (f : A → A) l x :
  alter f (length l) (l ++ [x]) = l ++ [f x].
Proof. induction l as [|y l IH]; [done|]. simpl. f_equal. exact IH. Qed.

Lemma add_values_snoc zone_id l (c : Change) vs :
  add_values {| hosted_zone_id := zone_id; changes := l ++ [c] |} (length l) vs
  = {| hosted_zone_id := zone_id;
       changes := l ++ [{| ch_action := ch_action c; ch_name := ch_name c;
                           ch_type := ch_type c; ch_ttl := ch_ttl c;
                           ch_values := ch_values c ++ vs |}] |}.
Proof.
  revert c. induction vs as [|v vs IH]; intros c.
  - simpl. rewrite app_nil_r. by destruct c.
  - unfold add_values in *. simpl. unfold add_value at 2. simpl.
    rewrite alter_last, IH. simpl. by rewrite <- app_assoc.
Qed.

Lemma main_submits p conn zone_id type r tr0 batch :
  Validated p conn zone_id type r →
  build_changes p conn (zones_of (get_all_hosted_zones conn))
    (with_trailing_dot (zone_in p)) r = (tr0, Next batch) →
  main p conn
  = (EvGetAllHostedZones :: tr0
       ++ (commit (commit_replies conn) batch (retry_interval_in p)).1,
     commit_outcome (commit (commit_replies conn) batch (retry_interval_in p)).2).
Proof.
  intros Hval Hb. rewrite (main_record _ _ _ _ _ Hval), Hb.
  unfold submit. simpl. by destruct (commit _ _ _).
Qed.


Lemma absent_delete p conn zone_id type r rset :
  Validated p conn zone_id type r →
  state_in p = st_absent →
  last_match type (with_trailing_dot r) (get_all_rrsets conn zone_id) = Some rset →
  RunsThrough p type (with_trailing_dot r) (get_all_rrsets conn zone_id) →
  build_changes p conn (zones_of (get_all_hosted_zones conn))
    (with_trailing_dot (zone_in p)) r
  = ([EvGetAllRRSets zone_id],
     Next {| hosted_zone_id := zone_id;
             changes :=
               [{| ch_action := DELETE; ch_name := with_trailing_dot r;
                   ch_type := type; ch_ttl := ttl_in p;
                   ch_values := Py.items (value_list (value_in p)) |}] |}).
Proof.
  intros Hval Hst Hlm Hrun.
  rewrite (build_changes_validated _ _ _ _ _ Hval) by done.
  rewrite Hlm. unfold changes_for. rewrite Hst. simpl.
  pose proof (add_values_snoc zone_id []
    {| ch_action := DELETE; ch_name := with_trailing_dot r; ch_type := type;
       ch_ttl := ttl_in p; ch_values := [] |}
    (Py.items (value_list (value_in p)))) as Hdel.
  simpl in Hdel. rewrite Hdel. reflexivity.
Qed.

Lemma items_value_list v :
  Py.truthy v = true → Py.items (value_list v) = Py.sorted (supplied_values v).
Proof. destruct v; simpl; try done. by intros ->. Qed.

Lemma list_reports_last_match p conn zone_id type r :
  Validated p conn zone_id type r →
  state_in p = st_list →
  RunsThrough p type (with_trailing_dot r) (get_all_rrsets conn zone_id) →
  main p conn
  = ([EvGetAllHostedZones; EvGetAllRRSets zone_id],
     exit_json_set false
       (record_of (with_trailing_dot (zone_in p))
          <$> last_match type (with_trailing_dot r) (get_all_rrsets conn zone_id))).
Proof.
  intros Hval Hst Hrun.
  rewrite (main_record _ _ _ _ _ Hval).
  rewrite (build_changes_validated _ _ _ _ _ Hval) by done.
  unfold changes_for. rewrite Hst. reflexivity.
Qed.
End main_facts.

(** C5, as amended.  State [present], a matching record set exists and
    every matching record set of the listing differs from the desired
    record in values or TTL, and [overwrite] is false: the run ends in
    [fail_json] with the message 'Record already exists with different
    value ...', after the two listing calls and without submitting any
    batch. *)
Theorem present_differs_no_overwrite_conflict {num : Py.Numeric}
    (p : Params) (conn : Provider) (zone_id type r : string) (rset : RSet) :
  Validated p conn zone_id type r →
  state_in p = st_present →
  overwrite p = Some false →
  last_match type (with_trailing_dot r) (get_all_rrsets conn zone_id) = Some rset →
  (∀ rset', rset' ∈ get_all_rrsets conn zone_id →
     matches type (with_trailing_dot r) rset' = true → Differs p rset') →
  main p conn = ([EvGetAllHostedZones; EvGetAllRRSets zone_id], fail_json conflict_message)
  ∧ attempts (main p conn).1 = 0%nat
  ∧ Forall (λ e, is_mutation e = false) (main p conn).1.
Proof.
  intros Hval Hst How Hlm Hdiff.
  rewrite (present_conflict p conn zone_id type r rset) by (done || by rewrite How).
  split_and!; [done|done|]. repeat constructor.
Qed.


Lemma eq_List_inv (v : Py.Val) (l : list string) :
  Py.eq v (Py.List l) = true → v = Py.List l.
Proof.
  destruct v; simpl; try discriminate.
  intros Heq. apply bool_decide_eq_true in Heq. by subst.
Qed.

(** For state [absent] the loop runs to its end as soon as [int] accepts
    the TTL of every matching record set that carries the caller's
    values. *)
Lemma absent_runs_through {num : Py.Numeric} (p : Params) (type record : string)
    (sets : list RSet) :
  state_in p = st_absent →
  (∀ rset, rset ∈ sets → matches type record rset = true →
     value_list (value_in p) = Py.List (Py.sorted (rset_resource_records rset)) →
     ∃ n, Py.int (rset_ttl rset) = Ok n) →
  RunsThrough p type record sets.
Proof.
  intros Hst Hread rset Hin Hm. unfold up_to_date.
  destruct (Py.eq _ _) eqn:Heq; [|done].
  destruct (Hread rset Hin Hm (eq_List_inv _ _ Heq)) as [n ->].
  rewrite Hst. simpl. by rewrite andb_false_r.
Qed.

(** C6.  State [absent] and a matching record set exists (the TTL of
    every matching record set that carries the caller's values being one
    that [int] accepts): whatever the values and TTLs of the listed
    record sets, the batch handed to [commit] is a single DELETE entry
    carrying the caller's TTL as supplied and the caller's values (split
    at commas when given as one string) in sorted order; nothing of the
    fetched record sets enters it. *)
Theorem absent_deletes_with_supplied_values {num : Py.Numeric}
    (p : Params) (conn : Provider) (zone_id type r : string) (rset : RSet) :
  Validated p conn zone_id type r →
  state_in p = st_absent →
  last_match type (with_trailing_dot r) (get_all_rrsets conn zone_id) = Some rset →
  (∀ rset', rset' ∈ get_all_rrsets conn zone_id →
     matches type (with_trailing_dot r) rset' = true →
     value_list (value_in p) = Py.List (Py.sorted (rset_resource_records rset')) →
     ∃ n, Py.int (rset_ttl rset') = Ok n) →
  let batch :=
    {| hosted_zone_id := zone_id;
       changes :=
         [{| ch_action := DELETE; ch_name := with_trailing_dot r; ch_type := type;
             ch_ttl := ttl_in p;
             ch_values := Py.sorted (supplied_values (value_in p)) |}] |} in
  build_changes p conn (zones_of (get_all_hosted_zones conn))
    (with_trailing_dot (zone_in p)) r = ([EvGetAllRRSets zone_id], Next batch)
  ∧ Py.sorted (supplied_values (value_in p)) ≡ₚ supplied_values (value_in p)
  ∧ main p conn
    = (EvGetAllHostedZones :: EvGetAllRRSets zone_id
         :: (commit (commit_replies conn) batch (retry_interval_in p)).1,
       commit_outcome (commit (commit_replies conn) batch (retry_interval_in p)).2).
Proof.
  intros Hval Hst Hlm Hread batch.
  assert (Hb : build_changes p conn (zones_of (get_all_hosted_zones conn))
                 (with_trailing_dot (zone_in p)) r = ([EvGetAllRRSets zone_id], Next batch)).
  { rewrite (absent_delete p conn zone_id type r rset);
      [|done|done|done|by apply absent_runs_through].
    unfold batch. rewrite items_value_list; [done|].
    apply Hval. by rewrite Hst. }
  split_and!; [done|apply merge_sort_Permutation|].
  by rewrite (main_submits p conn zone_id type r _ _ Hval Hb).
Qed.

(** C10.  A run with [overwrite] omitted is the run with [overwrite]
    false, whatever the other inputs; so a [present] run against a
    differing matched record set ends in the conflict [fail_json] and
    replaces nothing. *)
Theorem overwrite_omitted_is_false {num : Py.Numeric}
    (p : Params) (conn : Provider) (zone_id type r : string) (rset : RSet) :
  overwrite p = None →
  main p conn = main (with_overwrite (Some false) p) conn
  ∧ (Validated p conn zone_id type r →
     state_in p = st_present →
     last_match type (with_trailing_dot r) (get_all_rrsets conn zone_id) = Some rset →
     (∀ rset', rset' ∈ get_all_rrsets conn zone_id →
        matches type (with_trailing_dot r) rset' = true → Differs p rset') →
     main p conn
     = ([EvGetAllHostedZones; EvGetAllRRSets zone_id], fail_json conflict_message)
     ∧ main (with_overwrite (Some false) p) conn
       = ([EvGetAllHostedZones; EvGetAllRRSets zone_id], fail_json conflict_message)).
Proof.
  intros How.
  assert (Heq : main p conn = main (with_overwrite (Some false) p) conn).
  { destruct p. simpl in How. subst. reflexivity. }
  split; [done|]. intros Hval Hst Hlm Hdiff.
  rewrite <- Heq.
  by rewrite (present_conflict p conn zone_id type r rset) by (done || by rewrite How).
Qed.

(** *** Instances on the sample inputs *)

Lemma sample_validated st ttl value ow sets replies :
  (st ≠ st_list → Py.truthy value = true) →
  Validated (Sample.params st ttl value ow) (Sample.provider sets replies)
    "Z1" "A" "new.foo.com".
Proof. intros Hv. constructor; simpl; [done|reflexivity|done|exact Hv]. Qed.

Lemma present_differs_no_overwrite_conflict_witness :
  main (num:=Py.decimal) (Sample.desired st_present (Some false))
    (Sample.provider [Sample.other] Sample.replies_ok)
  = ([EvGetAllHostedZones; EvGetAllRRSets "Z1"], fail_json conflict_message)
  ∧ attempts (main (num:=Py.decimal) (Sample.desired st_present (Some false))
                (Sample.provider [Sample.other] Sample.replies_ok)).1 = 0%nat
  ∧ Forall (λ e, is_mutation e = false)
      (main (num:=Py.decimal) (Sample.desired st_present (Some false))
         (Sample.provider [Sample.other] Sample.replies_ok)).1.
Proof.
  apply (present_differs_no_overwrite_conflict (num:=Py.decimal)
           (Sample.desired st_present (Some false))
           (Sample.provider [Sample.other] Sample.replies_ok)
           "Z1" "A" "new.foo.com" Sample.other).
  - apply sample_validated. reflexivity.
  - reflexivity.
  - reflexivity.
  - vm_compute. reflexivity.
  - intros rset' Hin _. apply list_elem_of_singleton in Hin. subst rset'.
    left. vm_compute. reflexivity.
Defined.


Lemma absent_deletes_with_supplied_values_witness :
  let batch :=
    {| hosted_zone_id := "Z1";
       changes :=
         [{| ch_action := DELETE; ch_name := "new.foo.com."; ch_type := "A";
             ch_ttl := Py.Int 7200; ch_values := ["1.1.1.1"; "2.2.2.2"] |}] |} in
  build_changes (num:=Py.decimal) (Sample.desired st_absent None)
    (Sample.provider [Sample.other; Sample.same] Sample.replies_ok)
    (zones_of Sample.zone_listing) "foo.com." "new.foo.com"
  = ([EvGetAllRRSets "Z1"], Next batch)
  ∧ main (num:=Py.decimal) (Sample.desired st_absent None)
      (Sample.provider [Sample.other; Sample.same] Sample.replies_ok)
    = ([EvGetAllHostedZones; EvGetAllRRSets "Z1"; EvCommit batch], exit_json true).
Proof.
  pose proof (absent_deletes_with_supplied_values (num:=Py.decimal)
                (Sample.desired st_absent None)
                (Sample.provider [Sample.other; Sample.same] Sample.replies_ok)
                "Z1" "A" "new.foo.com" Sample.same) as Hthm.
  destruct Hthm as (Hbatch & _ & Hmain).
  - apply sample_validated. reflexivity.
  - reflexivity.
  - vm_compute. reflexivity.
  - intros rset' Hin _ _.
    repeat (apply elem_of_cons in Hin as [->|Hin]; [eexists; vm_compute; reflexivity|]).
    by apply not_elem_of_nil in Hin.
  - split; [exact Hbatch | exact Hmain].
Defined.

(** C5 as stated fails: the first and the last matching record set of
    this listing differ from the desired record and [overwrite] is
    false, yet the matching set between them is up to date, and the run
    ends in [exit_json(changed=False)] instead of the conflict. *)
Lemma present_differs_no_overwrite_no_conflict :
  let p := Sample.desired st_present (Some false) in
  let sets := [Sample.other; Sample.same; Sample.first_set] in
  (first_match "A" "new.foo.com." sets = Some Sample.other
   ∧ Differs (num:=Py.decimal) p Sample.other)
  ∧ (last_match "A" "new.foo.com." sets = Some Sample.first_set
     ∧ Differs (num:=Py.decimal) p Sample.first_set)
  ∧ main (num:=Py.decimal) p (Sample.provider sets Sample.replies_ok)
    = ([EvGetAllHostedZones; EvGetAllRRSets "Z1"], exit_json false)
  ∧ exit_json false ≠ fail_json conflict_message.
Proof.
  cbv zeta. split_and!.
  - vm_compute. reflexivity.
  - left. vm_compute. reflexivity.
  - vm_compute. reflexivity.
  - left. vm_compute. reflexivity.
  - vm_compute. reflexivity.
  - discriminate.
Qed.

Lemma overwrite_omitted_is_false_witness :
  main (num:=Py.decimal) (Sample.desired st_present None)
    (Sample.provider [Sample.other] Sample.replies_ok)
  = main (num:=Py.decimal) (with_overwrite (Some false) (Sample.desired st_present None))
      (Sample.provider [Sample.other] Sample.replies_ok)
  ∧ main (num:=Py.decimal) (Sample.desired st_present None)
      (Sample.provider [Sample.other] Sample.replies_ok)
    = ([EvGetAllHostedZones; EvGetAllRRSets "Z1"], fail_json conflict_message).
Proof.
  pose proof (overwrite_omitted_is_false (num:=Py.decimal)
                (Sample.desired st_present None)
                (Sample.provider [Sample.other] Sample.replies_ok)
                "Z1" "A" "new.foo.com" Sample.other) as Hthm.
  destruct Hthm as (Hsame & Hconflict).
  - reflexivity.
  - split; [exact Hsame|].
    apply Hconflict.
    + apply sample_validated. reflexivity.
    + reflexivity.
    + vm_compute. reflexivity.
    + intros rset' Hin _. apply list_elem_of_singleton in Hin. subst rset'.
      left. vm_compute. reflexivity.
Defined.

(** ** The up-to-date test and the TTL *)

(** When the desired TTL arrives as an [int], a [present] run that meets
    a matching record set with the same sorted values and the same TTL
    ends in [exit_json(changed=False)] without touching the provider. *)
Lemma present_up_to_date_int_ttl_noop {num : Py.Numeric}
    (p : Params) (conn : Provider) (zone_id type r : string)
    (l1 l2 : list RSet) (rset : RSet) (n : Z) :
  Validated p conn zone_id type r →
  state_in p = st_present →
  get_all_rrsets conn zone_id = l1 ++ rset :: l2 →
  RunsThrough p type (with_trailing_dot r) l1 →
  matches type (with_trailing_dot r) rset = true →
  value_list (value_in p) = Py.List (Py.sorted (rset_resource_records rset)) →
  Py.int (rset_ttl rset) = Ok n →
  ttl_in p = Py.Int n →
  main p conn = ([EvGetAllHostedZones; EvGetAllRRSets zone_id], exit_json false).
Proof.
  intros Hval Hst Hsets Hrun Hm Hvals Hint Httl.
  rewrite (main_record _ _ _ _ _ Hval), (build_changes_listed _ _ _ _ _ Hval).
  rewrite Hsets, (scan_stops _ _ _ _ _ _ l1 rset l2); [done|exact Hrun|exact Hm|].
  unfold up_to_date. rewrite Hvals, Hint, Httl, Hst. simpl.
  rewrite bool_decide_eq_true_2 by done. by rewrite Z.eqb_refl.
Qed.

(** C2 fails on the code when the desired TTL arrives as a string, as in
    the module's own examples ([ttl: "7200"]).  The existing record set
    below has the desired type, the desired TTL (both read 7200) and the
    desired values, yet the comparison of the converted existing TTL with
    the unconverted string is false: the run ends in the conflict
    [fail_json], or, with [overwrite] set, deletes and re-creates the
    record and reports a change.  The same run with the TTL given as the
    integer 7200 is the no-op the property describes. *)
Theorem present_up_to_date_str_ttl_not_noop :
  let p := Sample.desired_str_ttl None in
  let unchanged := [Sample.same] in
  let batch :=
    {| hosted_zone_id := "Z1";
       changes :=
         [{| ch_action := DELETE; ch_name := "new.foo.com."; ch_type := "A";
             ch_ttl := Py.Str "7200"; ch_values := ["1.1.1.1"; "2.2.2.2"] |};
          {| ch_action := CREATE; ch_name := "new.foo.com."; ch_type := "A";
             ch_ttl := Py.Str "7200"; ch_values := ["1.1.1.1"; "2.2.2.2"] |}] |} in
  (matches "A" "new.foo.com." Sample.same = true
   ∧ Py.decimal_int (rset_ttl Sample.same) = Py.decimal_int (ttl_in p)
   ∧ Py.sorted (rset_resource_records Sample.same) ≡ₚ supplied_values (value_in p))
  ∧ main (num:=Py.decimal) p (Sample.provider unchanged Sample.replies_ok)
    = ([EvGetAllHostedZones; EvGetAllRRSets "Z1"], fail_json conflict_message)
  ∧ main (num:=Py.decimal) (Sample.desired_str_ttl (Some true))
      (Sample.provider unchanged Sample.replies_ok)
    = ([EvGetAllHostedZones; EvGetAllRRSets "Z1"; EvCommit batch], exit_json true)
  ∧ main (num:=Py.decimal) (Sample.desired st_present None)
      (Sample.provider unchanged Sample.replies_ok)
    = ([EvGetAllHostedZones; EvGetAllRRSets "Z1"], exit_json false).
Proof.
  vm_compute. split_and!; try reflexivity. apply Permutation_swap.
Qed.

(** ** The matcher *)

(** C7, as amended.  When the loop over the listing runs to its end, the
    record it leaves behind is built from the last record set, in listing
    order, whose type and decoded name equal the desired pair (and the
    dict stays empty when there is none); this is the record that a
    [list] run reports. *)
Theorem matcher_keeps_last_match {num : Py.Numeric}
    (p : Params) (conn : Provider) (zone_id type r : string) :
  Validated p conn zone_id type r →
  RunsThrough p type (with_trailing_dot r) (get_all_rrsets conn zone_id) →
  let zone := with_trailing_dot (zone_in p) in
  let record := with_trailing_dot r in
  let sets := get_all_rrsets conn zone_id in
  scan zone type record (value_list (value_in p)) (ttl_in p) (state_in p) sets false None
  = Next (bool_decide (is_Some (last_match type record sets)),
          record_of zone <$> last_match type record sets)
  ∧ (∀ rset, last_match type record sets = Some rset →
       ∃ l1 l2, sets = l1 ++ rset :: l2
                ∧ rset_type rset = type ∧ decoded_name rset = record
                ∧ ∀ x, x ∈ l2 → matches type record x = false)
  ∧ (state_in p = st_list →
     main p conn
     = ([EvGetAllHostedZones; EvGetAllRRSets zone_id],
        exit_json_set false (record_of zone <$> last_match type record sets))).
Proof.
  intros Hval Hrun zone record sets. split_and!.
  - rewrite scan_runs_through by exact Hrun. simpl.
    by destruct (last_match type record sets).
  - intros rset Hlast.
    destruct (last_match_Some _ _ _ _ Hlast) as (l1 & l2 & Hsets & Hm & Hno).
    exists l1, l2. unfold matches in Hm.
    apply andb_true_iff in Hm as [Ht Hn].
    apply bool_decide_eq_true in Ht, Hn. done.
  - intros Hst. by apply list_reports_last_match.
Qed.

Lemma matcher_keeps_last_match_witness :
  main (num:=Py.decimal) (Sample.desired st_list None)
    (Sample.provider [Sample.first_set; Sample.other; Sample.second_set] Sample.replies_ok)
  = ([EvGetAllHostedZones; EvGetAllRRSets "Z1"],
     exit_json_set false (Some (record_of "foo.com." Sample.second_set))).
Proof.
  pose proof (matcher_keeps_last_match (num:=Py.decimal)
                (Sample.desired st_list None)
                (Sample.provider [Sample.first_set; Sample.other; Sample.second_set]
                   Sample.replies_ok)
                "Z1" "A" "new.foo.com") as Hthm.
  destruct Hthm as (_ & _ & Hmain).
  - apply sample_validated. intros Hst. by destruct Hst.
  - intros rset Hin _.
    repeat (apply elem_of_cons in Hin as [->|Hin]; [vm_compute; reflexivity|]).
    by apply not_elem_of_nil in Hin.
  - exact (Hmain eq_refl).
Defined.

(** C7 as stated fails: with two record sets of the same name and type
    in the listing, the record reported is built from the second, not
    from the first. *)
Lemma matcher_does_not_return_first_match :
  let sets := [Sample.first_set; Sample.second_set] in
  first_match "A" "new.foo.com." sets = Some Sample.first_set
  ∧ main (num:=Py.decimal) (Sample.desired st_list None)
      (Sample.provider sets Sample.replies_ok)
    = ([EvGetAllHostedZones; EvGetAllRRSets "Z1"],
       exit_json_set false (Some (record_of "foo.com." Sample.second_set)))
  ∧ record_of "foo.com." Sample.second_set ≠ record_of "foo.com." Sample.first_set.
Proof. vm_compute. split_and!; [reflexivity|reflexivity|discriminate]. Qed.

(** ** Value normalisation *)

Lemma string_app_cons c (s t : string) : String c s +:+ t = String c (s +:+ t).
Proof. reflexivity. Qed.

Lemma string_app_assoc (s1 s2 s3 : string) : (s1 +:+ s2) +:+ s3 = s1 +:+ s2 +:+ s3.
Proof. induction s1 as [|c s1 IH]; [done|]. by rewrite !string_app_cons, IH. Qed.

Lemma string_app_empty_r (s : string) : s +:+ "" = s.
Proof. induction s as [|c s IH]; [done|]. by rewrite string_app_cons, IH. Qed.

Lemma prefix_comma c s :
  String.prefix "," (String c s) = bool_decide (c = ","%char).
Proof.
  cbn [String.prefix]. destruct (ascii_dec "," c) as [<-|Hne].
  - rewrite bool_decide_eq_true_2 by done. by destruct s.
  - rewrite bool_decide_eq_false_2; [done|]. by intros ->.
Qed.

Lemma split_from_comma_free s : ∀ cur,
  comma_free s = true → Py.split_from "," 0 cur s = [cur +:+ s].
Proof.
  induction s as [|c s IH]; intros cur Hfree.
  - simpl. by rewrite string_app_empty_r.
  - cbn [Py.split_from]. rewrite prefix_comma.
    simpl in Hfree. apply andb_true_iff in Hfree as [Hc Hs].
    apply negb_true_iff in Hc. rewrite Hc.
    rewrite IH by done. by rewrite string_app_assoc.
Qed.

Lemma split_from_comma s t : ∀ cur,
  comma_free s = true →
  Py.split_from "," 0 cur (s +:+ "," +:+ t) = (cur +:+ s) :: Py.split_from "," 0 "" t.
Proof.
  induction s as [|c s IH]; intros cur Hfree.
  - rewrite string_app_empty_r.
    change ("" +:+ "," +:+ t) with (String ","%char t).
    cbn [Py.split_from]. rewrite prefix_comma.
    by rewrite bool_decide_eq_true_2.
  - rewrite string_app_cons.
    cbn [Py.split_from]. rewrite prefix_comma.
    simpl in Hfree. apply andb_true_iff in Hfree as [Hc Hs].
    apply negb_true_iff in Hc. rewrite Hc.
    rewrite IH by done. by rewrite string_app_assoc.
Qed.

Lemma split_join vs :
  vs ≠ [] → Forall (λ v, comma_free v = true) vs →
  Py.split (Py.join "," vs) "," = vs.
Proof.
  unfold Py.split, Py.join. intros Hne Hfree.
  induction Hfree as [|v vs Hv Hvs IH]; [done|].
  destruct vs as [|v' vs].
  - simpl. by rewrite split_from_comma_free.
  - change (String.concat "," (v :: v' :: vs))
      with (v +:+ "," +:+ String.concat "," (v' :: vs)).
    rewrite split_from_comma by done. by rewrite IH.
Qed.

Lemma sorted_Permutation l1 l2 : l1 ≡ₚ l2 → Py.sorted l1 = Py.sorted l2.
Proof.
  intros Hp. unfold Py.sorted.
  apply (Sorted_unique String.le); [apply Sorted_merge_sort, _..|].
  by rewrite !merge_sort_Permutation.
Qed.

(** C8, as amended.  For values that contain no comma and whose
    comma-join is not the empty string, normalising the joined string
    gives the same result as normalising the explicit list of the same
    values in any order, and that result is the list of the values in
    ascending order. *)
Theorem value_list_order_independent (vs vs' : list string) :
  Forall (λ v, comma_free v = true) vs →
  Py.join "," vs ≠ "" →
  vs ≡ₚ vs' →
  value_list (Py.Str (Py.join "," vs)) = value_list (Py.List vs')
  ∧ value_list (Py.List vs') = Py.List (Py.sorted vs)
  ∧ Sorted String.le (Py.sorted vs)
  ∧ Py.sorted vs ≡ₚ vs.
Proof.
  intros Hfree Hjoin Hperm.
  assert (Hne : vs ≠ []) by (intros ->; by apply Hjoin).
  assert (Hlist : value_list (Py.List vs') = Py.List (Py.sorted vs)).
  { simpl. f_equal. symmetry. by apply sorted_Permutation. }
  split_and!; [|done|apply Sorted_merge_sort, _|apply merge_sort_Permutation].
  rewrite Hlist. simpl.
  rewrite bool_decide_eq_false_2 by done. simpl.
  by rewrite split_join.
Qed.

Lemma value_list_order_independent_witness :
  value_list (Py.Str "2.2.2.2,1.1.1.1") = value_list (Py.List ["1.1.1.1"; "2.2.2.2"]).
Proof.
  apply (value_list_order_independent ["2.2.2.2"; "1.1.1.1"] ["1.1.1.1"; "2.2.2.2"]).
  - repeat constructor.
  - vm_compute. discriminate.
  - apply Permutation_swap.
Defined.

(** C8 as stated fails on values that the comma-delimited form cannot
    carry: a value containing a comma is split, and a lone empty value,
    like no value at all, turns into the empty tuple. *)
Lemma value_list_not_order_independent :
  value_list (Py.Str (Py.join "," ["a,b"])) ≠ value_list (Py.List ["a,b"])
  ∧ value_list (Py.Str (Py.join "," [""])) ≠ value_list (Py.List [""])
  ∧ Py.eq (value_list (Py.Str (Py.join "," []))) (value_list (Py.List [])) = false.
Proof. vm_compute. split_and!; [discriminate|discriminate|reflexivity]. Qed.

(** ** The zone directory *)

Lemma zones_of_snoc listing z :
  zones_of (listing ++ [z]) = <[hz_Name z := zone_id_of z]> (zones_of listing).
Proof. unfold zones_of. by rewrite foldl_snoc. Qed.

Lemma last_zone_snoc name listing z :
  last_zone name (listing ++ [z])
  = if decide (hz_Name z = name) then Some z else last_zone name listing.
Proof.
  unfold last_zone. rewrite filter_app, filter_cons, filter_nil.
  destruct (decide (hz_Name z = name)).
  - by rewrite last_snoc.
  - by rewrite app_nil_r.
Qed.

Lemma zones_of_lookup listing name :
  zones_of listing !! name = zone_id_of <$> last_zone name listing.
Proof.
  induction listing as [|z listing IH] using rev_ind; [done|].
  rewrite zones_of_snoc, last_zone_snoc, lookup_insert.
  destruct (decide (hz_Name z = name)); [done|exact IH].
Qed.

Lemma last_zone_app name l1 z l2 :
  hz_Name z = name → (∀ z', z' ∈ l2 → hz_Name z' ≠ name) →
  last_zone name (l1 ++ z :: l2) = Some z.
Proof.
  intros Hz Hl2. unfold last_zone.
  rewrite filter_app, filter_cons_True by done.
  assert (filter (λ z0, hz_Name z0 = name) l2 = []) as ->.
  { induction l2 as [|y l2 IH]; [done|].
    rewrite filter_cons_False; [apply IH|];
      [intros; apply Hl2; by apply list_elem_of_further|apply Hl2, list_elem_of_here]. }
  apply last_snoc.
Qed.

(** C9.  The [zones] dict maps every name to the id (with its
    [/hostedzone/] prefix removed) of the last hosted zone of the listing
    that bears this name; earlier zones of the same name are overwritten. *)
Theorem zones_keep_last_listed_zone (listing : list HostedZone) (name : string) :
  zones_of listing !! name = zone_id_of <$> last_zone name listing
  ∧ ∀ l1 z l2,
      listing = l1 ++ z :: l2 →
      hz_Name z = name →
      (∀ z', z' ∈ l2 → hz_Name z' ≠ name) →
      zones_of listing !! name = Some (zone_id_of z).
Proof.
  split; [apply zones_of_lookup|].
  intros l1 z l2 -> Hz Hl2.
  by rewrite zones_of_lookup, (last_zone_app name l1 z l2).
Qed.

Lemma zones_keep_last_listed_zone_witness :
  zones_of Sample.twin_zones !! "foo.com." = Some "Z2"
  ∧ (main (num:=Py.decimal) (Sample.desired st_list None)
       (Sample.twin_provider [])).1
    = [EvGetAllHostedZones; EvGetAllRRSets "Z2"].
Proof.
  split.
  - apply (proj2 (zones_keep_last_listed_zone Sample.twin_zones "foo.com.")
             [{| hz_Id := "/hostedzone/Z1"; hz_Name := "foo.com." |}]
             {| hz_Id := "/hostedzone/Z2"; hz_Name := "foo.com." |} []).
    + reflexivity.
    + reflexivity.
    + intros z' Hin. by apply not_elem_of_nil in Hin.
  - vm_compute. reflexivity.
Defined.

(** ** More on [commit] *)

Section commit_more.
Context {num : Py.Numeric}.
Variable replies : nat → Res string.
Variable batch : ResourceRecordSets.
Variable interval : Py.Val.

(** One transient reply with retries left: pause and go round again. *)
Lemma commit_loop_step retry k tr :
  is_transient (replies k) = true →
  (1 ≤ retry)%Z →
  Py.sleep interval = Ok () →
  commit_loop replies batch interval retry k tr
  = commit_loop replies batch interval (retry - 1) (S k)
      (tr ++ [EvCommit batch; EvSleep interval]).
Proof.
  intros Hk Hretry Hsleep.
  destruct (is_transient_inv _ Hk) as (body & Hr & Hcode).
  rewrite commit_loop_equation_1, Hr. cbn -[Z.sub]. rewrite Hcode. cbn -[Z.sub].
  destruct (decide _) as [[Hne|Hlt]|Hgo]; [done|lia|].
  cbn -[Z.sub]. rewrite Hsleep. reflexivity.
Qed.

(** A reply that is not transient ends the loop. *)
Lemma commit_loop_final retry k tr :
  is_transient (replies k) = false →
  commit_loop replies batch interval retry k tr
  = (tr ++ [EvCommit batch],
     match replies k with
     | Ok r => Ok r
     | Raise (DNSServerError body) =>
         match error_code body with
         | Ok _ => Raise (DNSServerError body)
         | Raise e => Raise e
         end
     | Raise e => Raise e
     end).
Proof.
  intros Hk. rewrite commit_loop_equation_1.
  destruct (replies k) as [r|[body| | | | |name]]; try reflexivity.
  cbn -[Z.sub]. simpl in Hk. apply bool_decide_eq_false in Hk.
  destruct (error_code body) as [code|e]; [|reflexivity]. cbn -[Z.sub].
  destruct (decide _) as [Hyes|Hno]; [reflexivity|].
  exfalso. apply Hk. f_equal.
  destruct (decide (code = "PriorRequestNotComplete")); [done|].
  exfalso. apply Hno. by left.
Qed.

Lemma commit_loop_prefix n : ∀ retry k tr,
  (Z.of_nat n ≤ retry)%Z →
  (∀ j, (j < n)%nat → is_transient (replies (k + j)%nat) = true) →
  Py.sleep interval = Ok () →
  commit_loop replies batch interval retry k tr
  = commit_loop replies batch interval (retry - Z.of_nat n) (k + n)%nat
      (tr ++ concat (replicate n [EvCommit batch; EvSleep interval])).
Proof.
  induction n as [|n IH]; intros retry k tr Hretry Hbusy Hsleep.
  - simpl. rewrite app_nil_r, Nat.add_0_r. f_equal. lia.
  - rewrite commit_loop_step; [|by rewrite <- (Nat.add_0_r k); apply Hbusy; lia|lia|done].
    rewrite IH; [|lia| |done].
    + simpl. rewrite <- app_assoc. f_equal; [lia|f_equal; lia].
    + intros j Hj. replace (S k + j)%nat with (k + S j)%nat by lia. apply Hbusy. lia.
Qed.

Lemma commit_loop_bounded retry k tr :
  ∃ n, (Z.of_nat n ≤ Z.max 0 retry)%Z
     ∧ (commit_loop replies batch interval retry k tr).1
       = tr ++ retry_trace batch interval n.
Proof.
  funelim (commit_loop replies batch interval retry k tr);
    try (exists 0%nat; split; [lia | reflexivity]).
  match goal with IH : ∃ _, _ |- _ => destruct IH as (m & Hm & Htr) end.
  exists (S m). split.
  - assert (¬ (retry - 1 < 0)%Z) by (intros ?; apply Hgo; by right). lia.
  - rewrite Htr, retry_trace_S, <- app_assoc. reflexivity.
Qed.

End commit_more.

(** X1.  Whatever the provider answers, [commit] submits the same batch
    at most 11 times, pausing for the retry interval between two
    submissions and nowhere else. *)
Theorem commit_trace_bounded {num : Py.Numeric}
    (replies : nat → Res string) (batch : ResourceRecordSets) (interval : Py.Val) :
  ∃ n, (n ≤ 10)%nat
     ∧ (commit replies batch interval).1 = retry_trace batch interval n
     ∧ attempts (commit replies batch interval).1 = S n
     ∧ sleeps (commit replies batch interval).1 = n.
Proof.
  unfold commit.
  destruct (commit_loop_bounded replies batch interval 10 0 []) as (n & Hn & Htr).
  exists n. rewrite Htr. simpl.
  split_and!; [lia|done|apply attempts_retry_trace|apply sleeps_retry_trace].
Qed.

(** X2.  When the first [n] submissions (n at most 10) meet a transient
    error and the next one is accepted, [commit] returns the provider's
    response after [n] pauses. *)
Theorem commit_succeeds_after_transient {num : Py.Numeric}
    (replies : nat → Res string) (batch : ResourceRecordSets) (interval : Py.Val)
    (n : nat) (result : string) :
  (n ≤ 10)%nat →
  (∀ j, (j < n)%nat → is_transient (replies j) = true) →
  replies n = Ok result →
  Py.sleep interval = Ok () →
  commit replies batch interval = (retry_trace batch interval n, Ok result).
Proof.
  intros Hn Hbusy Hok Hsleep. unfold commit.
  rewrite (commit_loop_prefix replies batch interval n); [|lia|exact Hbusy|done].
  rewrite commit_loop_final by (simpl; by rewrite Hok).
  simpl. by rewrite Hok.
Qed.

Lemma commit_succeeds_after_transient_witness :
  commit (num:=Py.decimal)
    (λ k, if decide (k < 3)%nat then Raise (DNSServerError Sample.busy) else Ok "done")
    Sample.batch (Py.Int 500)
  = (retry_trace Sample.batch (Py.Int 500) 3, Ok "done").
Proof.
  apply (commit_succeeds_after_transient (num:=Py.decimal)
           (λ k, if decide (k < 3)%nat then Raise (DNSServerError Sample.busy) else Ok "done")
           Sample.batch (Py.Int 500) 3 "done").
  - lia.
  - intros j Hj. destruct (decide (j < 3)%nat); [vm_compute; reflexivity|lia].
  - reflexivity.
  - reflexivity.
Defined.

(** X3.  When the first [n] submissions (n at most 10) meet a transient
    error and the next one raises anything else, [commit] raises after
    [n] pauses and submits no more: a [DNSServerError] with another code
    is re-raised, one without a code tag gives the [IndexError] of the
    lookup, and any other exception passes through uncaught. *)
Theorem commit_raises_first_other_error {num : Py.Numeric}
    (replies : nat → Res string) (batch : ResourceRecordSets) (interval : Py.Val)
    (n : nat) (e : Exn) :
  (n ≤ 10)%nat →
  (∀ j, (j < n)%nat → is_transient (replies j) = true) →
  replies n = Raise e →
  is_transient (Raise e) = false →
  Py.sleep interval = Ok () →
  commit replies batch interval
  = (retry_trace batch interval n,
     match e with
     | DNSServerError body =>
         match error_code body with
         | Ok _ => Raise (DNSServerError body)
         | Raise e' => Raise e'
         end
     | _ => Raise e
     end).
Proof.
  intros Hn Hbusy Hr Hother Hsleep. unfold commit.
  rewrite (commit_loop_prefix replies batch interval n); [|lia|exact Hbusy|done].
  rewrite commit_loop_final by (simpl; by rewrite Hr).
  simpl. rewrite Hr. by destruct e.
Qed.

Lemma commit_raises_first_other_error_witness :
  commit (num:=Py.decimal)
    (λ k, if decide (k < 2)%nat then Raise (DNSServerError Sample.busy)
          else Raise (OtherException "socket.error"))
    Sample.batch (Py.Int 500)
  = (retry_trace Sample.batch (Py.Int 500) 2, Raise (OtherException "socket.error")).
Proof.
  apply (commit_raises_first_other_error (num:=Py.decimal)
           (λ k, if decide (k < 2)%nat then Raise (DNSServerError Sample.busy)
                 else Raise (OtherException "socket.error"))
           Sample.batch (Py.Int 500) 2 (OtherException "socket.error")).
  - lia.
  - intros j Hj. destruct (decide (j < 2)%nat); [vm_compute; reflexivity|lia].
  - reflexivity.
  - reflexivity.
  - reflexivity.
Defined.

(** X4.  When the pause itself raises (a retry interval that [float] or
    [time.sleep] rejects), a transient error on the first submission
    ends [commit] with that exception: nothing is retried and the
    provider's error is lost. *)
Theorem commit_unusable_interval {num : Py.Numeric}
    (replies : nat → Res string) (batch : ResourceRecordSets) (interval : Py.Val)
    (e : Exn) :
  is_transient (replies 0%nat) = true →
  Py.sleep interval = Raise e →
  commit replies batch interval = ([EvCommit batch], Raise e).
Proof.
  intros Hk Hsleep. unfold commit.
  destruct (is_transient_inv _ Hk) as (body & Hr & Hcode).
  rewrite commit_loop_equation_1, Hr. simpl. rewrite Hcode. simpl.
  by rewrite Hsleep.
Qed.

Lemma commit_unusable_interval_witness :
  commit (num:=Py.decimal) Sample.always_busy Sample.batch (Py.Str "soon")
  = ([EvCommit Sample.batch], Raise ValueError).
Proof.
  apply (commit_unusable_interval (num:=Py.decimal)
           Sample.always_busy Sample.batch (Py.Str "soon") ValueError).
  - vm_compute. reflexivity.
  - vm_compute. reflexivity.
Defined.

(** [split] of a string in which the separator does not occur. *)
Lemma split_from_absent sep s : ∀ cur,
  contains sep s = false → Py.split_from sep 0 cur s = [cur +:+ s].
Proof.
  induction s as [|c s IH]; intros cur Hno.
  - simpl. by rewrite string_app_empty_r.
  - cbn [contains] in Hno. apply orb_false_iff in Hno as [Hp Hs].
    cbn [Py.split_from]. rewrite Hp, IH by done. by rewrite string_app_assoc.
Qed.

(** X5.  A [DNSServerError] whose body contains no [<Code>] tag makes
    [commit] raise [IndexError] after a single submission, whatever the
    retry interval. *)
Theorem commit_body_without_code {num : Py.Numeric}
    (replies : nat → Res string) (batch : ResourceRecordSets) (interval : Py.Val)
    (body : string) :
  replies 0%nat = Raise (DNSServerError body) →
  contains "<Code>" body = false →
  commit replies batch interval = ([EvCommit batch], Raise IndexError).
Proof.
  intros Hr Hno.
  assert (Hcode : error_code body = Raise IndexError).
  { unfold error_code, Py.split. by rewrite split_from_absent. }
  rewrite (commit_first_error_other replies batch interval body Hr)
    by (rewrite Hcode; discriminate).
  by rewrite Hcode.
Qed.

Lemma commit_body_without_code_witness :
  commit (num:=Py.decimal) (λ _, Raise (DNSServerError "503 Service Unavailable"))
    Sample.batch (Py.Int 500)
  = ([EvCommit Sample.batch], Raise IndexError).
Proof.
  apply (commit_body_without_code (num:=Py.decimal)
           (λ _, Raise (DNSServerError "503 Service Unavailable"))
           Sample.batch (Py.Int 500) "503 Service Unavailable").
  - reflexivity.
  - vm_compute. reflexivity.
Defined.

(** ** More on the record branch of [main] *)

Section record_more.
Context {num : Py.Numeric}.

Lemma last_zone_None name listing :
  (∀ z, z ∈ listing → hz_Name z ≠ name) → last_zone name listing = None.
Proof.
  intros Hno. unfold last_zone. apply last_None.
  induction listing as [|y l IH]; [done|].
  rewrite filter_cons_False; [apply IH|];
    [intros; apply Hno; by apply list_elem_of_further|apply Hno, list_elem_of_here].
Qed.

Lemma zones_of_unlisted name listing :
  ¬ listed name listing → zones_of listing !! name = None.
Proof.
  intros Hno. rewrite zones_of_lookup, last_zone_None; [done|].
  intros z Hz Hn. apply Hno. by exists z.
Qed.

Lemma zones_of_listed name listing :
  listed name listing → is_Some (zones_of listing !! name).
Proof.
  intros (z & Hz & Hn). rewrite zones_of_lookup.
  apply list_elem_of_split in Hz as (l1 & l2 & ->).
  assert (Hlast : is_Some (last_zone name (l1 ++ z :: l2))).
  { unfold last_zone. rewrite filter_app, filter_cons_True by done.
    rewrite last_app_cons, last_cons.
    destruct (last _); by eexists. }
  destruct Hlast as [z' ->]. by eexists.
Qed.

Lemma main_record_given p conn r :
  record_given p r →
  main p conn
  = match (emit EvGetAllHostedZones;;
           changes ← build_changes p conn (zones_of (get_all_hosted_zones conn))
                       (with_trailing_dot (zone_in p)) r;
           submit p conn changes) with
    | (tr, Stop o) => (tr, o)
    | (tr, Next _) => (tr, exit_json true)
    end.
Proof.
  intros [Hr Hr0]. unfold main, main_body. rewrite Hr.
  by destruct (decide (r = "")).
Qed.

Lemma no_match_runs_through p type record sets :
  last_match type record sets = None → RunsThrough p type record sets.
Proof.
  intros Hnone rset Hin Hm. exfalso.
  unfold last_match in Hnone. apply last_None in Hnone.
  assert (rset ∈ filter (λ rset0, matches type record rset0) sets) as Hf.
  { apply list_elem_of_filter. split; [by rewrite Hm|done]. }
  rewrite Hnone in Hf. by apply not_elem_of_nil in Hf.
Qed.

End record_more.

(** X6.  A record operation on a zone that the provider does not list
    ends in [fail_json] 'Zone ... does not exist in Route53' right after
    the zone listing: no record set is fetched and nothing is changed. *)
Theorem record_unknown_zone_fails {num : Py.Numeric}
    (p : Params) (conn : Provider) (r : string) :
  record_given p r →
  ¬ listed (with_trailing_dot (zone_in p)) (get_all_hosted_zones conn) →
  main p conn
  = ([EvGetAllHostedZones],
     fail_json ("Zone " +:+ with_trailing_dot (zone_in p) +:+ " does not exist in Route53")).
Proof.
  intros Hr Hno. rewrite (main_record_given p conn r Hr).
  unfold build_changes. by rewrite (zones_of_unlisted _ _ Hno).
Qed.

Lemma record_unknown_zone_fails_witness :
  main (num:=Py.decimal) (Sample.desired st_present None) Sample.empty_provider
  = ([EvGetAllHostedZones], fail_json "Zone foo.com. does not exist in Route53").
Proof.
  apply (record_unknown_zone_fails (num:=Py.decimal)
           (Sample.desired st_present None) Sample.empty_provider "new.foo.com").
  - split; [reflexivity|discriminate].
  - intros (z & Hz & _). simpl in Hz. by apply not_elem_of_nil in Hz.
Defined.

(** X7.  On a known zone, a record operation without a type fails with
    'parameter 'type' required ...', and one with a type but without a
    value fails, for [present] and [absent], with 'parameter 'value'
    required ...'; either way the record sets are not fetched. *)
Theorem record_missing_type_or_value_fails {num : Py.Numeric}
    (p : Params) (conn : Provider) (r : string) :
  record_given p r →
  listed (with_trailing_dot (zone_in p)) (get_all_hosted_zones conn) →
  (given (type_in p) = false →
   main p conn
   = ([EvGetAllHostedZones],
      fail_json "parameter 'type' required when 'record' is provided"))
  ∧ (given (type_in p) = true →
     state_in p ≠ st_list →
     Py.truthy (value_in p) = false →
     main p conn
     = ([EvGetAllHostedZones],
        fail_json "parameter 'value' required for present/absent when 'record' is provided")).
Proof.
  intros Hr Hz. rewrite (main_record_given p conn r Hr).
  destruct (zones_of_listed _ _ Hz) as [zone_id Hid].
  unfold build_changes. rewrite Hid, M_bind_ret.
  split.
  - intros Ht. destruct (type_in p) as [t|]; [|done].
    simpl in Ht. destruct (decide (t = "")); [done|].
    by rewrite bool_decide_eq_false_2 in Ht.
  - intros Ht Hst Hv. destruct (type_in p) as [t|]; [|done].
    simpl in Ht. destruct (decide (t = "")) as [->|_]; [done|].
    rewrite M_bind_ret, Hv. by destruct (state_in p).
Qed.

Lemma record_missing_type_or_value_fails_witness :
  main (num:=Py.decimal) (Sample.params st_absent (Py.Int 3600) (Py.Str "") None)
    (Sample.provider [Sample.same] Sample.replies_ok)
  = ([EvGetAllHostedZones],
     fail_json "parameter 'value' required for present/absent when 'record' is provided").
Proof.
  apply (proj2 (record_missing_type_or_value_fails (num:=Py.decimal)
                  (Sample.params st_absent (Py.Int 3600) (Py.Str "") None)
                  (Sample.provider [Sample.same] Sample.replies_ok) "new.foo.com"
                  ltac:(split; [reflexivity|discriminate])
                  ltac:(eexists; split; [apply list_elem_of_here|reflexivity]))).
  - reflexivity.
  - discriminate.
  - reflexivity.
Defined.

(** X8.  State [present] and no record set of the listing matches: the
    batch handed to [commit] is a single CREATE entry with the desired
    name, type, TTL and values. *)
Theorem present_no_match_creates {num : Py.Numeric}
    (p : Params) (conn : Provider) (zone_id type r : string) :
  Validated p conn zone_id type r →
  state_in p = st_present →
  last_match type (with_trailing_dot r) (get_all_rrsets conn zone_id) = None →
  let batch :=
    {| hosted_zone_id := zone_id;
       changes :=
         [{| ch_action := CREATE; ch_name := with_trailing_dot r; ch_type := type;
             ch_ttl := ttl_in p;
             ch_values := Py.sorted (supplied_values (value_in p)) |}] |} in
  main p conn
  = (EvGetAllHostedZones :: EvGetAllRRSets zone_id
       :: (commit (commit_replies conn) batch (retry_interval_in p)).1,
     commit_outcome (commit (commit_replies conn) batch (retry_interval_in p)).2).
Proof.
  intros Hval Hst Hlm batch.
  rewrite (main_submits p conn zone_id type r [EvGetAllRRSets zone_id] batch Hval); [done|].
  rewrite (build_changes_validated _ _ _ _ _ Hval) by by apply no_match_runs_through.
  rewrite Hlm. unfold changes_for. rewrite Hst. simpl.
  pose proof (add_values_snoc zone_id []
    {| ch_action := CREATE; ch_name := with_trailing_dot r; ch_type := type;
       ch_ttl := ttl_in p; ch_values := [] |}
    (Py.items (value_list (value_in p)))) as Hcre.
  simpl in Hcre. rewrite Hcre. unfold batch.
  rewrite items_value_list; [done|]. apply Hval. by rewrite Hst.
Qed.

Lemma present_no_match_creates_witness :
  main (num:=Py.decimal) (Sample.desired st_present None)
    (Sample.provider [] Sample.replies_ok)
  = ([EvGetAllHostedZones; EvGetAllRRSets "Z1";
      EvCommit {| hosted_zone_id := "Z1";
                  changes :=
                    [{| ch_action := CREATE; ch_name := "new.foo.com."; ch_type := "A";
                        ch_ttl := Py.Int 7200;
                        ch_values := ["1.1.1.1"; "2.2.2.2"] |}] |}],
     exit_json true).
Proof.
  apply (present_no_match_creates (num:=Py.decimal) (Sample.desired st_present None)
           (Sample.provider [] Sample.replies_ok) "Z1" "A" "new.foo.com").
  - apply sample_validated. reflexivity.
  - reflexivity.
  - reflexivity.
Defined.

(** X9.  State [absent] and no record set of the listing matches: the
    run ends in [exit_json(changed=False)] after the two listing calls. *)
Theorem absent_no_match_noop {num : Py.Numeric}
    (p : Params) (conn : Provider) (zone_id type r : string) :
  Validated p conn zone_id type r →
  state_in p = st_absent →
  last_match type (with_trailing_dot r) (get_all_rrsets conn zone_id) = None →
  main p conn = ([EvGetAllHostedZones; EvGetAllRRSets zone_id], exit_json false).
Proof.
  intros Hval Hst Hlm.
  rewrite (main_record _ _ _ _ _ Hval).
  rewrite (build_changes_validated _ _ _ _ _ Hval) by by apply no_match_runs_through.
  rewrite Hlm. unfold changes_for. rewrite Hst. reflexivity.
Qed.

Lemma absent_no_match_noop_witness :
  main (num:=Py.decimal) (Sample.desired st_absent None)
    (Sample.provider [] Sample.replies_ok)
  = ([EvGetAllHostedZones; EvGetAllRRSets "Z1"], exit_json false).
Proof.
  apply (absent_no_match_noop (num:=Py.decimal) (Sample.desired st_absent None)
           (Sample.provider [] Sample.replies_ok) "Z1" "A" "new.foo.com").
  - apply sample_validated. reflexivity.
  - reflexivity.
  - reflexivity.
Defined.

(** ** What a run changes and what it reports *)

Section quiet.
Context {num : Py.Numeric}.

Lemma quiet_bind {A B} (m : M A) (k : A → M B) :
  Quiet m → (∀ a, Quiet (k a)) → Quiet (m ≫= k).
Proof.
  destruct m as [tr [a|o]]; intros [Htr Ho] Hk; unfold mbind, M_bind; simpl in *.
  - destruct (Hk a) as [Htr' Ho']. destruct (k a) as [tr' c]. simpl in *.
    split; [by apply Forall_app|done].
  - done.
Qed.

Lemma quiet_ret {A} (a : A) : Quiet (mret a : M A).
Proof. split; [constructor|done]. Qed.

Lemma quiet_when (b : bool) (o : Outcome) :
  changed_flag o ≠ Some true → Quiet (when_ b (halt o)).
Proof. intros Ho. destruct b; simpl; [|apply quiet_ret]. split; [constructor|done]. Qed.

Lemma scan_quiet zone type record vl ttl st sets : ∀ found rec,
  Quiet (lift (scan zone type record vl ttl st sets found rec)).
Proof.
  induction sets as [|rset sets IH]; intros found rec; simpl.
  - split; [constructor|done].
  - destruct (matches type record rset); [|apply IH].
    destruct (up_to_date vl ttl st rset) as [[]|e]; [| apply IH |];
      (split; [constructor|done]).
Qed.

(** For state [list] the loop never takes the up-to-date exit. *)
Lemma scan_list_not_exit zone type record vl ttl sets : ∀ found rec,
  match scan zone type record vl ttl st_list sets found rec with
  | Stop (uncaught _) | Next _ => True
  | Stop _ => False
  end.
Proof.
  induction sets as [|rset sets IH]; intros found rec; simpl; [done|].
  destruct (matches type record rset); [|apply IH].
  unfold up_to_date. destruct (Py.eq vl _); [|apply IH].
  destruct (Py.int _); [|done]. rewrite andb_false_r. apply IH.
Qed.

Lemma build_changes_quiet p conn zones zone r :
  Quiet (build_changes p conn zones zone r).
Proof.
  unfold build_changes.
  apply quiet_bind; [destruct (zones !! zone); [apply quiet_ret|by split; [constructor|]]|].
  intros zone_id. cbv zeta.
  apply quiet_bind.
  { destruct (type_in p) as [t|]; [destruct (decide (t = ""))|];
      first [apply quiet_ret | by split; [constructor|]]. }
  intros type. apply quiet_bind; [by apply quiet_when|]. intros _.
  apply quiet_bind; [split; [by repeat constructor|done]|]. intros _.
  apply quiet_bind; [apply scan_quiet|]. intros [found rec].
  unfold changes_for. cbv zeta.
  apply quiet_bind; [by apply quiet_when|]. intros _.
  apply quiet_bind; [by apply quiet_when|]. intros _.
  apply quiet_bind.
  { destruct (_ && _); [|apply quiet_ret].
    destruct (negb _); [by split; [constructor|]|].
    destruct rec; [|by split; [constructor|]].
    unfold add_change. apply quiet_ret. }
  intros changes. destruct (bool_decide _); [|apply quiet_ret].
  unfold add_change. apply quiet_ret.
Qed.

End quiet.

Section truthful.
Context {num : Py.Numeric}.

Lemma main_record_stopped p conn r tr o :
  record_given p r →
  build_changes p conn (zones_of (get_all_hosted_zones conn))
    (with_trailing_dot (zone_in p)) r = (tr, Stop o) →
  main p conn = (EvGetAllHostedZones :: tr, o).
Proof. intros Hr Hb. by rewrite (main_record_given p conn r Hr), Hb. Qed.

Lemma main_record_submitted p conn r tr batch :
  record_given p r →
  build_changes p conn (zones_of (get_all_hosted_zones conn))
    (with_trailing_dot (zone_in p)) r = (tr, Next batch) →
  main p conn
  = (EvGetAllHostedZones :: tr
       ++ (commit (commit_replies conn) batch (retry_interval_in p)).1,
     commit_outcome (commit (commit_replies conn) batch (retry_interval_in p)).2).
Proof.
  intros Hr Hb. rewrite (main_record_given p conn r Hr), Hb.
  unfold submit. simpl. by destruct (commit _ _ _).
Qed.

Lemma main_zone_operation p conn :
  given (record_in p) = false →
  main p conn
  = match (emit EvGetAllHostedZones;;
           zone_operation p conn (zones_of (get_all_hosted_zones conn))
             (with_trailing_dot (zone_in p))) with
    | (tr, Stop o) => (tr, o)
    | (tr, Next _) => (tr, exit_json true)
    end.
Proof.
  unfold main, main_body, given. destruct (record_in p) as [r|]; [|done].
  destruct (decide (r = "")); [done|]. by rewrite bool_decide_eq_false_2.
Qed.

Lemma given_cases o : given o = false ∨ ∃ r, o = Some r ∧ r ≠ "".
Proof.
  destruct o as [r|]; [|by left]. simpl.
  destruct (decide (r = "")) as [->|Hr]; [by left|right; eauto].
Qed.

Lemma quiet_no_mutation (tr : list Event) :
  Forall (λ e, is_mutation e = false) tr → existsb is_mutation tr = false.
Proof. induction 1 as [|e tr He _ IH]; simpl; [done|]. by rewrite He, IH. Qed.

Lemma commit_mutates replies batch interval :
  existsb is_mutation (commit replies batch interval).1 = true.
Proof.
  unfold commit.
  destruct (commit_loop_bounded replies batch interval 10 0 []) as (n & _ & ->).
  simpl. unfold retry_trace. rewrite existsb_app. simpl. by rewrite orb_true_r.
Qed.

Lemma commit_outcome_flag r c :
  changed_flag (commit_outcome r) = Some c → c = true.
Proof.
  destruct r as [?|[body| | | | |?]]; simpl; try congruence.
  destruct (error_message body); simpl; congruence.
Qed.

Lemma zone_operation_truthful p conn zones zone :
  ∃ tr o, zone_operation p conn zones zone = (tr, Stop o)
        ∧ (∀ c, changed_flag o = Some c → c = existsb is_mutation tr)
        ∧ (state_in p = st_list → Forall (λ e, is_mutation e = false) tr
                                  ∧ changed_flag o = None).
Proof.
  unfold zone_operation.
  repeat case_match; (eexists _, _; split; [reflexivity|]); simpl.
  all: split; [intros c; congruence|].
  all: try done.
  all: intros _; split; [constructor|done].
Qed.

Lemma build_changes_list_stops p conn zones zone r :
  state_in p = st_list → Stops (build_changes p conn zones zone r).
Proof.
  intros Hst. unfold build_changes. do 5 (apply bind_stops; intros ?).
  unfold changes_for. rewrite Hst. by eexists _, _.
Qed.

End truthful.

(** X10.  A run with state [list] never changes anything at the
    provider, whatever the other parameters and whatever the provider
    lists, and never reports a change. *)
Theorem list_never_mutates {num : Py.Numeric} (p : Params) (conn : Provider) :
  state_in p = st_list →
  Forall (λ e, is_mutation e = false) (main p conn).1
  ∧ attempts (main p conn).1 = 0%nat
  ∧ changed_flag (main p conn).2 ≠ Some true.
Proof.
  intros Hst.
  assert (Hq : Forall (λ e, is_mutation e = false) (main p conn).1
               ∧ changed_flag (main p conn).2 ≠ Some true).
  { destruct (given_cases (record_in p)) as [Hno|(r & Hr)].
    - rewrite (main_zone_operation p conn Hno).
      destruct (zone_operation_truthful p conn (zones_of (get_all_hosted_zones conn))
                  (with_trailing_dot (zone_in p))) as (tr & o & -> & _ & Hlist).
      destruct (Hlist Hst) as [Htr Ho]. simpl. split; [by constructor|by rewrite Ho].
    - destruct (build_changes_list_stops p conn (zones_of (get_all_hosted_zones conn))
                  (with_trailing_dot (zone_in p)) r Hst) as (tr & o & Hb).
      rewrite (main_record_stopped p conn r tr o Hr Hb).
      pose proof (build_changes_quiet p conn (zones_of (get_all_hosted_zones conn))
                    (with_trailing_dot (zone_in p)) r) as [Htr Ho].
      rewrite Hb in Htr, Ho. simpl in *. split; [by constructor|done]. }
  destruct Hq as [Htr Ho]. split_and!; [done| |done].
  unfold attempts. induction Htr as [|e tr He _ IH]; [done|].
  simpl. destruct e; simpl in *; try done.
Qed.

Lemma list_never_mutates_witness :
  Forall (λ e, is_mutation e = false)
    (main (num:=Py.decimal) (Sample.desired st_list (Some true))
       (Sample.provider [Sample.same; Sample.no_ttl_set] Sample.always_busy)).1.
Proof.
  apply (list_never_mutates (num:=Py.decimal) (Sample.desired st_list (Some true))
           (Sample.provider [Sample.same; Sample.no_ttl_set] Sample.always_busy)).
  reflexivity.
Defined.

(** X11.  The [changed] flag is truthful: whenever a run ends in
    [exit_json], it reports [changed=True] exactly when it has sent a
    mutation (a commit, a zone creation or a zone deletion) to the
    provider. *)
Theorem changed_flag_truthful {num : Py.Numeric}
    (p : Params) (conn : Provider) (c : bool) :
  changed_flag (main p conn).2 = Some c →
  c = existsb is_mutation (main p conn).1.
Proof.
  destruct (given_cases (record_in p)) as [Hno|(r & Hr)].
  - rewrite (main_zone_operation p conn Hno).
    destruct (zone_operation_truthful p conn (zones_of (get_all_hosted_zones conn))
                (with_trailing_dot (zone_in p))) as (tr & o & -> & Hflag & _).
    simpl. apply Hflag.
  - pose proof (build_changes_quiet p conn (zones_of (get_all_hosted_zones conn))
                  (with_trailing_dot (zone_in p)) r) as [Htr Ho].
    destruct (build_changes p conn _ _ r) as [tr [batch|o]] eqn:Hb; simpl in *.
    + rewrite (main_record_submitted p conn r tr batch Hr Hb). simpl.
      intros ->%commit_outcome_flag.
      by rewrite existsb_app, commit_mutates, orb_true_r.
    + rewrite (main_record_stopped p conn r tr o Hr Hb). simpl.
      rewrite (quiet_no_mutation tr Htr). destruct c; [done|done].
Qed.

Lemma changed_flag_truthful_witness :
  true = existsb is_mutation
           (main (num:=Py.decimal) (Sample.desired st_present None)
              (Sample.provider [] Sample.replies_ok)).1.
Proof.
  apply (changed_flag_truthful (num:=Py.decimal) (Sample.desired st_present None)
           (Sample.provider [] Sample.replies_ok) true).
  reflexivity.
Defined.

(** ** Edge cases of the scan *)

Section scan_more.
Context {num : Py.Numeric}.

Lemma scan_raises zone type record vl ttl st l1 rset l2 e : ∀ found rec,
  (∀ x, x ∈ l1 → matches type record x = true → up_to_date vl ttl st x = Ok false) →
  matches type record rset = true →
  up_to_date vl ttl st rset = Raise e →
  scan zone type record vl ttl st (l1 ++ rset :: l2) found rec = Stop (uncaught e).
Proof.
  induction l1 as [|x l1 IH]; intros found rec Hrun Hm Hup; simpl.
  - by rewrite Hm, Hup.
  - destruct (matches type record x) eqn:Hx.
    + rewrite (Hrun x) by (done || apply list_elem_of_here).
      apply IH; [|done|done]. intros; apply Hrun; [by apply list_elem_of_further|done].
    + apply IH; [|done|done]. intros; apply Hrun; [by apply list_elem_of_further|done].
Qed.

Lemma same_up_to_order_matches type record r1 r2 :
  same_up_to_order r1 r2 → matches type record r1 = matches type record r2.
Proof.
  intros (Hn & Ht & _ & _). unfold matches, decoded_name. by rewrite Hn, Ht.
Qed.

Lemma same_up_to_order_sorted r1 r2 :
  same_up_to_order r1 r2 →
  Py.sorted (rset_resource_records r1) = Py.sorted (rset_resource_records r2).
Proof. intros (_ & _ & _ & Hp). by apply sorted_Permutation. Qed.

Lemma scan_same_up_to_order zone type record vl ttl st sets1 sets2 :
  Forall2 same_up_to_order sets1 sets2 →
  ∀ found rec,
    scan zone type record vl ttl st sets1 found rec
    = scan zone type record vl ttl st sets2 found rec.
Proof.
  induction 1 as [|r1 r2 l1 l2 Hr _ IH]; intros found rec; simpl; [done|].
  rewrite (same_up_to_order_matches _ _ _ _ Hr).
  assert (up_to_date vl ttl st r1 = up_to_date vl ttl st r2) as ->.
  { unfold up_to_date. rewrite (same_up_to_order_sorted _ _ Hr).
    destruct Hr as (_ & _ & -> & _). done. }
  assert (record_of zone r1 = record_of zone r2) as ->.
  { unfold record_of, decoded_name. rewrite (same_up_to_order_sorted _ _ Hr).
    destruct Hr as (-> & -> & -> & _). done. }
  by rewrite !IH.
Qed.

End scan_more.

(** X12.  The TTL of a matching record set with the desired values is
    converted with [int] before the state is looked at: when that
    conversion raises, the run ends in that exception, for [present],
    [absent] and [list] alike, and nothing is changed. *)
Theorem matching_values_bad_ttl_raises {num : Py.Numeric}
    (p : Params) (conn : Provider) (zone_id type r : string)
    (l1 l2 : list RSet) (rset : RSet) (e : Exn) :
  Validated p conn zone_id type r →
  get_all_rrsets conn zone_id = l1 ++ rset :: l2 →
  RunsThrough p type (with_trailing_dot r) l1 →
  matches type (with_trailing_dot r) rset = true →
  value_list (value_in p) = Py.List (Py.sorted (rset_resource_records rset)) →
  Py.int (rset_ttl rset) = Raise e →
  main p conn = ([EvGetAllHostedZones; EvGetAllRRSets zone_id], uncaught e).
Proof.
  intros Hval Hsets Hrun Hm Hvals Hint.
  rewrite (main_record _ _ _ _ _ Hval), (build_changes_listed _ _ _ _ _ Hval).
  rewrite Hsets, (scan_raises _ _ _ _ _ _ l1 rset l2 e); [done|exact Hrun|exact Hm|].
  unfold up_to_date. rewrite Hvals, Hint. simpl.
  by rewrite bool_decide_eq_true_2.
Qed.

Lemma matching_values_bad_ttl_raises_witness :
  main (num:=Py.decimal) (Sample.desired st_absent None)
    (Sample.provider [Sample.other; Sample.no_ttl_set] Sample.replies_ok)
  = ([EvGetAllHostedZones; EvGetAllRRSets "Z1"], uncaught TypeError).
Proof.
  apply (matching_values_bad_ttl_raises (num:=Py.decimal) (Sample.desired st_absent None)
           (Sample.provider [Sample.other; Sample.no_ttl_set] Sample.replies_ok)
           "Z1" "A" "new.foo.com" [Sample.other] [] Sample.no_ttl_set TypeError).
  - apply sample_validated. reflexivity.
  - reflexivity.
  - intros rset Hin _. apply list_elem_of_singleton in Hin. subst rset.
    vm_compute. reflexivity.
  - vm_compute. reflexivity.
  - vm_compute. reflexivity.
  - reflexivity.
Defined.

(** X13.  The order in which the provider lists the values of a record
    set is immaterial: two providers whose record sets differ only in
    the order of their values give the same run. *)
Theorem value_order_of_listing_immaterial {num : Py.Numeric}
    (p : Params) (conn : Provider) (sets : string → list RSet) :
  (∀ zone_id, Forall2 same_up_to_order (get_all_rrsets conn zone_id) (sets zone_id)) →
  main p (with_rrsets sets conn) = main p conn.
Proof.
  intros Hsets. unfold main, main_body. simpl.
  destruct (record_in p) as [r|]; [|done].
  destruct (decide (r = "")); [done|].
  assert (build_changes p (with_rrsets sets conn) (zones_of (get_all_hosted_zones conn))
            (with_trailing_dot (zone_in p)) r
          = build_changes p conn (zones_of (get_all_hosted_zones conn))
              (with_trailing_dot (zone_in p)) r) as ->; [|done].
  unfold build_changes.
  destruct (zones_of _ !! _) as [zone_id|]; [|done]. rewrite !M_bind_ret.
  destruct (type_in p) as [t|]; [|done].
  destruct (decide (t = "")); [done|]. rewrite !M_bind_ret.
  simpl get_all_rrsets.
  by rewrite <- (scan_same_up_to_order _ _ _ _ _ _ _ _ (Hsets zone_id)).
Qed.

Lemma value_order_of_listing_immaterial_witness :
  main (num:=Py.decimal) (Sample.desired st_present None)
    (with_rrsets (λ _, [Sample.rset (Py.Str "7200") ["2.2.2.2"; "1.1.1.1"]])
       (Sample.provider [Sample.same] Sample.replies_ok))
  = main (num:=Py.decimal) (Sample.desired st_present None)
      (Sample.provider [Sample.same] Sample.replies_ok).
Proof.
  apply (value_order_of_listing_immaterial (num:=Py.decimal)
           (Sample.desired st_present None)
           (Sample.provider [Sample.same] Sample.replies_ok)
           (λ _, [Sample.rset (Py.Str "7200") ["2.2.2.2"; "1.1.1.1"]])).
  intros zone_id. constructor; [|constructor].
  split_and!; [reflexivity|reflexivity|reflexivity|apply Permutation_swap].
Defined.

(** ** Names *)

Lemma last_slice_app_dot s : Py.last_slice (s +:+ ".") = ".".
Proof.
  induction s as [|c s IH]; [done|].
  rewrite string_app_cons. cbn [Py.last_slice].
  destruct (s +:+ ".") eqn:Hs; [|exact IH].
  by destruct s.
Qed.

Lemma with_trailing_dot_ends s : Py.last_slice (with_trailing_dot s) = ".".
Proof.
  unfold with_trailing_dot. destruct (decide (Py.last_slice s ≠ ".")) as [Hne|He].
  - apply last_slice_app_dot.
  - by destruct (decide (Py.last_slice s = ".")).
Qed.

Lemma with_trailing_dot_idem s :
  with_trailing_dot (with_trailing_dot s) = with_trailing_dot s.
Proof.
  unfold with_trailing_dot at 1.
  destruct (decide _) as [Hne|_]; [|done].
  by rewrite with_trailing_dot_ends in Hne.
Qed.

Lemma with_trailing_dot_nonempty s : with_trailing_dot s ≠ "".
Proof.
  intros He. pose proof (with_trailing_dot_ends s) as Hd. by rewrite He in Hd.
Qed.

(** X14.  The trailing dot of the zone and record names is optional:
    a run with the names as given equals the run with both names in
    their dotted form. *)
Theorem trailing_dot_optional {num : Py.Numeric} (p : Params) (conn : Provider) :
  record_in p ≠ Some "" →
  main (with_names (with_trailing_dot (zone_in p))
          (with_trailing_dot <$> record_in p) p) conn
  = main p conn.
Proof.
  intros Hr. unfold main, main_body. simpl.
  rewrite with_trailing_dot_idem.
  destruct (record_in p) as [r|]; simpl; [|done].
  destruct (decide (with_trailing_dot r = "")) as [He|_];
    [by apply with_trailing_dot_nonempty in He|].
  destruct (decide (r = "")) as [->|_]; [done|].
  unfold build_changes. simpl. by rewrite with_trailing_dot_idem.
Qed.

Lemma trailing_dot_optional_witness :
  main (num:=Py.decimal)
    (with_names "foo.com." (Some "new.foo.com.") (Sample.desired st_present None))
    (Sample.provider [Sample.other] Sample.replies_ok)
  = main (num:=Py.decimal) (Sample.desired st_present None)
      (Sample.provider [Sample.other] Sample.replies_ok).
Proof.
  apply (trailing_dot_optional (num:=Py.decimal) (Sample.desired st_present None)
           (Sample.provider [Sample.other] Sample.replies_ok)).
  discriminate.
Defined.

(** [replace] where the old string does not occur, and at an occurrence. *)
Lemma replace_from_absent old new s :
  contains old s = false → Py.replace_from old new 0 s = s.
Proof.
  induction s as [|c s IH]; [done|].
  cbn [contains]. intros [Hp Hs]%orb_false_iff.
  cbn [Py.replace_from]. by rewrite Hp, IH.
Qed.

Lemma replace_from_skip old new a : ∀ s,
  Py.replace_from old new (String.length a) (a +:+ s) = Py.replace_from old new 0 s.
Proof.
  induction a as [|c a IH]; intros s; [done|].
  rewrite string_app_cons. cbn [String.length Py.replace_from]. apply IH.
Qed.

Lemma prefix_app old s : String.prefix old (old +:+ s) = true.
Proof.
  induction old as [|c old IH]; [by destruct s|].
  rewrite string_app_cons. cbn [String.prefix].
  destruct (ascii_dec c c); [exact IH|done].
Qed.

Lemma replace_at_occurrence old new s :
  old ≠ "" →
  Py.replace (old +:+ s) old new = new +:+ Py.replace s old new.
Proof.
  intros Hne. unfold Py.replace. destruct old as [|c old]; [done|].
  rewrite string_app_cons. cbn [Py.replace_from].
  rewrite <- string_app_cons, prefix_app.
  replace (String.length (String c old) - 1)%nat with (String.length old)
    by (cbn [String.length]; lia).
  by rewrite replace_from_skip.
Qed.

(** X15.  Decoding leaves a name without the escapes [\052] and [\100]
    unchanged. *)
Theorem decoded_name_without_escapes (rset : RSet) :
  contains "\052" (rset_name rset) = false →
  contains "\100" (rset_name rset) = false →
  decoded_name rset = rset_name rset.
Proof.
  intros H52 H100. unfold decoded_name, Py.replace.
  by rewrite (replace_from_absent "\052"), (replace_from_absent "\100").
Qed.

Lemma decoded_name_without_escapes_witness :
  decoded_name Sample.same = "new.foo.com.".
Proof.
  apply (decoded_name_without_escapes Sample.same); vm_compute; reflexivity.
Defined.

(** X16.  A leading [\052] decodes to [*] and a leading [\100] to [@],
    the rest of the name (free of escapes) being kept: a wildcard or
    apex record listed in escaped form matches the literal name. *)
Theorem decoded_name_leading_escape (rset : RSet) (rest : string) :
  contains "\052" rest = false →
  contains "\100" rest = false →
  (rset_name rset = "\052" +:+ rest → decoded_name rset = "*" +:+ rest)
  ∧ (rset_name rset = "\100" +:+ rest → decoded_name rset = "@" +:+ rest).
Proof.
  intros H52 H100. unfold decoded_name. split; intros ->.
  - rewrite replace_at_occurrence by done.
    unfold Py.replace at 2. rewrite replace_from_absent by done.
    unfold Py.replace. rewrite replace_from_absent; [done|].
    change ("*" +:+ rest) with (String "*"%char rest).
    cbn [contains]. by rewrite H100.
  - unfold Py.replace at 2. rewrite replace_from_absent.
    + rewrite replace_at_occurrence by done.
      unfold Py.replace. by rewrite replace_from_absent.
    + change ("\100" +:+ rest)
        with (String "\"%char (String "1"%char (String "0"%char (String "0"%char rest)))).
      cbn [contains]. by rewrite H52.
Qed.

Lemma decoded_name_leading_escape_witness :
  decoded_name {| rset_name := "\052.foo.com."; rset_type := "A";
                  rset_ttl := Py.Str "300"; rset_resource_records := ["1.1.1.1"] |}
  = "*.foo.com.".
Proof.
  apply (proj1 (decoded_name_leading_escape
                  {| rset_name := "\052.foo.com."; rset_type := "A";
                     rset_ttl := Py.Str "300"; rset_resource_records := ["1.1.1.1"] |}
                  ".foo.com." ltac:(vm_compute; reflexivity) ltac:(vm_compute; reflexivity))).
  reflexivity.
Defined.

(** X17.  The zone id kept in the [zones] dict is the provider's id
    without its [/hostedzone/] prefix; an id that does not contain that
    text is kept as it is. *)
Theorem zone_id_without_prefix (r53zone : HostedZone) (id : string) :
  contains "/hostedzone/" id = false →
  (hz_Id r53zone = "/hostedzone/" +:+ id → zone_id_of r53zone = id)
  ∧ (hz_Id r53zone = id → zone_id_of r53zone = id).
Proof.
  intros Hno. unfold zone_id_of. split; intros ->.
  - rewrite replace_at_occurrence by done.
    unfold Py.replace. by rewrite replace_from_absent.
  - unfold Py.replace. by rewrite replace_from_absent.
Qed.

Lemma zone_id_without_prefix_witness :
  zone_id_of {| hz_Id := "/hostedzone/Z1"; hz_Name := "foo.com." |} = "Z1".
Proof.
  apply (proj1 (zone_id_without_prefix
                  {| hz_Id := "/hostedzone/Z1"; hz_Name := "foo.com." |} "Z1"
                  ltac:(vm_compute; reflexivity))).
  reflexivity.
Defined.

(** ** From [list] back to [value] *)

Lemma sorted_idem l : Py.sorted (Py.sorted l) = Py.sorted l.
Proof. apply sorted_Permutation, merge_sort_Permutation. Qed.

(** X18.  The [value] string that a [list] run reports can be fed back
    as the [value] parameter when it is not empty: if no value of the
    record set contains a comma, it normalises to the reported
    [values], and with the TTL given as the integer the record set
    reads, a [present] run finds the record set up to date.  An empty
    reported [value] (a record set without values, or with the empty
    string as its only value) does not come back: it normalises to the
    empty tuple and counts as no value at all. *)
Theorem listed_value_round_trip {num : Py.Numeric} (zone : string) (rset : RSet) (n : Z) :
  Forall (λ v, comma_free v = true) (rset_resource_records rset) →
  (rec_value (record_of zone rset) ≠ "" →
   value_list (Py.Str (rec_value (record_of zone rset)))
   = Py.List (rec_values (record_of zone rset))
   ∧ (Py.int (rset_ttl rset) = Ok n →
      up_to_date (value_list (Py.Str (rec_value (record_of zone rset))))
        (Py.Int n) st_present rset = Ok true))
  ∧ (rec_value (record_of zone rset) = "" →
     (rset_resource_records rset = [] ∨ rset_resource_records rset = [""])
     ∧ value_list (Py.Str (rec_value (record_of zone rset))) = Py.Tuple []
     ∧ Py.truthy (Py.Str (rec_value (record_of zone rset))) = false).
Proof.
  intros Hfree. unfold record_of in *. cbn [rec_value rec_values] in *. split.
  - intros Hne.
    assert (Hvl : value_list (Py.Str (Py.join "," (Py.sorted (rset_resource_records rset))))
                  = Py.List (Py.sorted (rset_resource_records rset))).
    { cbn [value_list Py.truthy]. rewrite bool_decide_eq_false_2 by done.
      cbn [negb]. rewrite split_join, sorted_idem; [done| |].
      - intros Hnil. apply Hne. by rewrite Hnil.
      - unfold Py.sorted. by rewrite merge_sort_Permutation. }
    split; [exact Hvl|]. intros Hint.
    unfold up_to_date. rewrite Hvl, Hint. simpl.
    rewrite bool_decide_eq_true_2 by done. by rewrite Z.eqb_refl.
  - intros He. rewrite He. split_and!; [|reflexivity|reflexivity].
    pose proof (merge_sort_Permutation String.le (rset_resource_records rset)) as Hperm.
    fold (Py.sorted (rset_resource_records rset)) in Hperm.
    destruct (Py.sorted (rset_resource_records rset)) as [|v [|v' l]] eqn:Hs.
    + left. by apply Permutation_nil in Hperm.
    + right. unfold Py.join in He. simpl in He. subst v.
      by apply Permutation_singleton_l in Hperm.
    + exfalso. unfold Py.join in He.
      change (String.concat "," (v :: v' :: l))
        with (v +:+ "," +:+ String.concat "," (v' :: l)) in He.
      destruct v; discriminate.
Qed.

Lemma listed_value_round_trip_witness :
  value_list (Py.Str (rec_value (record_of "foo.com." Sample.same)))
  = Py.List (rec_values (record_of "foo.com." Sample.same)).
Proof.
  apply (proj1 (listed_value_round_trip (num:=Py.decimal) "foo.com." Sample.same 7200
                  ltac:(repeat constructor))).
  vm_compute. discriminate.
Defined.

(** ** Provider errors in [main] *)

(** X19.  When the first submission of a batch is refused with a
    [DNSServerError] of a code other than [PriorRequestNotComplete], the
    run ends after that single submission in [fail_json] with the text
    between the [Message] tags of the error body. *)
Theorem refused_batch_reports_message {num : Py.Numeric}
    (p : Params) (conn : Provider) (r : string) (tr : list Event)
    (batch : ResourceRecordSets) (body code txt : string) :
  record_given p r →
  build_changes p conn (zones_of (get_all_hosted_zones conn))
    (with_trailing_dot (zone_in p)) r = (tr, Next batch) →
  commit_replies conn 0%nat = Raise (DNSServerError body) →
  error_code body = Ok code →
  code ≠ "PriorRequestNotComplete" →
  error_message body = Ok txt →
  main p conn = (EvGetAllHostedZones :: tr ++ [EvCommit batch], fail_json txt).
Proof.
  intros Hr Hb H0 Hcode Hne Htxt.
  rewrite (main_record_submitted p conn r tr batch Hr Hb).
  rewrite (commit_first_error_other _ batch (retry_interval_in p) body H0)
    by (rewrite Hcode; congruence).
  simpl. by rewrite Hcode, Htxt.
Qed.

Lemma refused_batch_reports_message_witness :
  main (num:=Py.decimal) (Sample.desired st_present None)
    (Sample.provider [] Sample.always_invalid)
  = ([EvGetAllHostedZones; EvGetAllRRSets "Z1";
      EvCommit {| hosted_zone_id := "Z1";
                  changes :=
                    [{| ch_action := CREATE; ch_name := "new.foo.com."; ch_type := "A";
                        ch_ttl := Py.Int 7200;
                        ch_values := ["1.1.1.1"; "2.2.2.2"] |}] |}],
     fail_json "Tried to create resource record set but it already exists").
Proof.
  apply (refused_batch_reports_message (num:=Py.decimal) (Sample.desired st_present None)
           (Sample.provider [] Sample.always_invalid) "new.foo.com"
           [EvGetAllRRSets "Z1"] _ Sample.invalid "InvalidChangeBatch"
           "Tried to create resource record set but it already exists").
  - split; [reflexivity|discriminate].
  - reflexivity.
  - reflexivity.
  - reflexivity.
  - discriminate.
  - reflexivity.
Defined.

(** X20.  When the provider stays busy through all 11 submissions of a
    batch, the run ends in [fail_json] with the message of the last
    error, after 10 pauses. *)
Theorem busy_provider_reports_message {num : Py.Numeric}
    (p : Params) (conn : Provider) (r : string) (tr : list Event)
    (batch : ResourceRecordSets) (body txt : string) :
  record_given p r →
  build_changes p conn (zones_of (get_all_hosted_zones conn))
    (with_trailing_dot (zone_in p)) r = (tr, Next batch) →
  (∀ k, (k ≤ 10)%nat → is_transient (commit_replies conn k) = true) →
  Py.sleep (retry_interval_in p) = Ok () →
  commit_replies conn 10%nat = Raise (DNSServerError body) →
  error_message body = Ok txt →
  main p conn
  = (EvGetAllHostedZones :: tr ++ retry_trace batch (retry_interval_in p) 10,
     fail_json txt).
Proof.
  intros Hr Hb Hbusy Hsleep H10 Htxt.
  rewrite (main_record_submitted p conn r tr batch Hr Hb).
  unfold commit. change 10%Z with (Z.of_nat 10).
  rewrite commit_loop_busy; [|intros j Hj; apply Hbusy; lia|done].
  change (0 + 10)%nat with 10%nat. rewrite H10. simpl. by rewrite Htxt.
Qed.

Lemma busy_provider_reports_message_witness :
  (main (num:=Py.decimal) (Sample.desired st_present None)
     (Sample.provider [] Sample.always_busy)).2
  = fail_json
      "The request was rejected because Route 53 was still processing a prior request.".
Proof.
  pose proof (busy_provider_reports_message (num:=Py.decimal)
                (Sample.desired st_present None)
                (Sample.provider [] Sample.always_busy) "new.foo.com"
                [EvGetAllRRSets "Z1"] _ Sample.busy
                "The request was rejected because Route 53 was still processing a prior request."
                ltac:(split; [reflexivity|discriminate]) eq_refl) as Hthm.
  rewrite Hthm; [reflexivity| | | |].
  - intros k _. vm_compute. reflexivity.
  - reflexivity.
  - reflexivity.
  - reflexivity.
Defined.

(** ** The hosted-zone branch of [main] *)

(** X21.  Without a record, [present] on a zone that is listed and
    [absent] on a zone that is not are no-ops: one zone listing, no
    change, [changed=False]. *)
Theorem zone_already_as_desired {num : Py.Numeric} (p : Params) (conn : Provider) :
  given (record_in p) = false →
  (state_in p = st_present ∧
   listed (with_trailing_dot (zone_in p)) (get_all_hosted_zones conn))
  ∨ (state_in p = st_absent ∧
     ¬ listed (with_trailing_dot (zone_in p)) (get_all_hosted_zones conn)) →
  main p conn = ([EvGetAllHostedZones], exit_json false).
Proof.
  intros Hno Hcase. rewrite (main_zone_operation p conn Hno). unfold zone_operation.
  destruct Hcase as [[-> Hz]|[-> Hz]].
  - destruct (zones_of_listed _ _ Hz) as [id ->]. reflexivity.
  - by rewrite (zones_of_unlisted _ _ Hz).
Qed.

Lemma zone_already_as_desired_witness :
  main (num:=Py.decimal) (Sample.zone_params st_present None None)
    (Sample.provider [] Sample.replies_ok)
  = ([EvGetAllHostedZones], exit_json false).
Proof.
  apply (zone_already_as_desired (num:=Py.decimal)
           (Sample.zone_params st_present None None)
           (Sample.provider [] Sample.replies_ok)).
  - reflexivity.
  - left. split; [reflexivity|].
    eexists. split; [apply list_elem_of_here|reflexivity].
Defined.

(** X22.  Without a record, [present] on a zone that is not listed
    creates it with one call: a public zone when no VPC is given, a
    private one when both VPC and region are given; a VPC without a
    region is refused before anything is created. *)
Theorem zone_created_when_missing {num : Py.Numeric} (p : Params) (conn : Provider) :
  given (record_in p) = false →
  state_in p = st_present →
  ¬ listed (with_trailing_dot (zone_in p)) (get_all_hosted_zones conn) →
  (given (vpc_in p) = false →
   main p conn
   = ([EvGetAllHostedZones; EvCreateZone (with_trailing_dot (zone_in p)) None None],
      exit_json_id true (created_zone_id conn)))
  ∧ (given (vpc_in p) = true → given (region p) = true →
     main p conn
     = ([EvGetAllHostedZones;
         EvCreateZone (with_trailing_dot (zone_in p)) (vpc_in p) (region p)],
        exit_json_id true (created_zone_id conn)))
  ∧ (given (vpc_in p) = true → given (region p) = false →
     main p conn
     = ([EvGetAllHostedZones],
        fail_json "parameter 'region' required when 'vpc_in' is provided")).
Proof.
  intros Hno Hst Hz. rewrite (main_zone_operation p conn Hno). unfold zone_operation.
  rewrite Hst, (zones_of_unlisted _ _ Hz). unfold given.
  destruct (vpc_in p) as [vpc|]; [destruct (decide (vpc = "")) as [->|Hv]|];
    (split_and!; [| |]); intros; try done;
    try (by rewrite bool_decide_eq_false_2 in * by done).
  - destruct (region p) as [reg|]; [|done].
    destruct (decide (reg = "")) as [->|]; done.
  - destruct (region p) as [reg|]; [|done].
    destruct (decide (reg = "")) as [->|Hr]; [done|].
    by rewrite bool_decide_eq_false_2 in * by done.
Qed.

Lemma zone_created_when_missing_witness :
  main (num:=Py.decimal) (Sample.zone_params st_present (Some "vpc-1234abcd") None)
    Sample.empty_provider
  = ([EvGetAllHostedZones],
     fail_json "parameter 'region' required when 'vpc_in' is provided").
Proof.
  apply (zone_created_when_missing (num:=Py.decimal)
           (Sample.zone_params st_present (Some "vpc-1234abcd") None)
           Sample.empty_provider).
  - reflexivity.
  - reflexivity.
  - intros (z & Hz & _). simpl in Hz. by apply not_elem_of_nil in Hz.
  - reflexivity.
  - reflexivity.
Defined.



(** X24.  Without a record, state [list] always fails with 'Zone ...
    does not exist in Route53', even when the zone is listed. *)
Theorem zone_list_always_fails {num : Py.Numeric} (p : Params) (conn : Provider) :
  given (record_in p) = false →
  state_in p = st_list →
  main p conn
  = ([EvGetAllHostedZones],
     fail_json ("Zone " +:+ with_trailing_dot (zone_in p) +:+ " does not exist in Route53")).
Proof.
  intros Hno Hst. rewrite (main_zone_operation p conn Hno).
  unfold zone_operation. by rewrite Hst.
Qed.

Lemma zone_list_always_fails_witness :
  main (num:=Py.decimal) (Sample.zone_params st_list None None)
    (Sample.provider [] Sample.replies_ok)
  = ([EvGetAllHostedZones], fail_json "Zone foo.com. does not exist in Route53").
Proof.
  apply (zone_list_always_fails (num:=Py.decimal)
           (Sample.zone_params st_list None None)
           (Sample.provider [] Sample.replies_ok)).
  - reflexivity.
  - reflexivity.
Defined.

(** ** The up-to-date exit *)

(** X25.  State [present] with the TTL given as an integer and the
    values as a string or a list: when the listing holds a matching
    record set with the same values in any order and a TTL that reads
    the same integer, and no earlier matching set stops the scan, the
    run ends in [exit_json(changed=False)] after the two listing calls. *)
Theorem present_same_record_int_ttl_noop {num : Py.Numeric}
    (p : Params) (conn : Provider) (zone_id type r : string)
    (l1 l2 : list RSet) (rset : RSet) (n : Z) :
  Validated p conn zone_id type r →
  state_in p = st_present →
  ((∃ s, value_in p = Py.Str s) ∨ (∃ l, value_in p = Py.List l)) →
  get_all_rrsets conn zone_id = l1 ++ rset :: l2 →
  RunsThrough p type (with_trailing_dot r) l1 →
  matches type (with_trailing_dot r) rset = true →
  supplied_values (value_in p) ≡ₚ rset_resource_records rset →
  Py.int (rset_ttl rset) = Ok n →
  ttl_in p = Py.Int n →
  main p conn = ([EvGetAllHostedZones; EvGetAllRRSets zone_id], exit_json false).
Proof.
  intros Hval Hst Hform Hsets Hrun Hm Hperm Hint Httl.
  apply (present_up_to_date_int_ttl_noop p conn zone_id type r l1 l2 rset n);
    try done.
  assert (Hv : Py.truthy (value_in p) = true) by (apply Hval; by rewrite Hst).
  rewrite <- (sorted_Permutation _ _ Hperm).
  destruct Hform as [[s Hs]|[l Hl]].
  - rewrite Hs in *. simpl in *. by rewrite Hv.
  - by rewrite Hl.
Qed.

Lemma present_same_record_int_ttl_noop_witness :
  main (num:=Py.decimal) (Sample.desired st_present None)
    (Sample.provider [Sample.other; Sample.same; Sample.first_set] Sample.replies_ok)
  = ([EvGetAllHostedZones; EvGetAllRRSets "Z1"], exit_json false).
Proof.
  apply (present_same_record_int_ttl_noop (num:=Py.decimal)
           (Sample.desired st_present None)
           (Sample.provider [Sample.other; Sample.same; Sample.first_set]
              Sample.replies_ok)
           "Z1" "A" "new.foo.com" [Sample.other] [Sample.first_set] Sample.same 7200).
  - apply sample_validated. reflexivity.
  - reflexivity.
  - left. by eexists.
  - reflexivity.
  - intros rset Hin _. apply list_elem_of_singleton in Hin. subst rset.
    vm_compute. reflexivity.
  - vm_compute. reflexivity.
  - vm_compute. apply Permutation_swap.
  - reflexivity.
  - reflexivity.
Defined.

(** ** The calls of a run *)

Section calls.
Context {num : Py.Numeric}.

Lemma changes_for_trace p zone_id type record vl found rec :
  (changes_for p zone_id type record vl found rec).1 = [].
Proof.
  unfold changes_for.
  destruct (state_in p), found, (overwrite p) as [[]|], rec; reflexivity.
Qed.

Lemma build_changes_trace p conn zones zone r :
  (build_changes p conn zones zone r).1 = []
  ∧ (∃ o, (build_changes p conn zones zone r).2 = Stop o)
  ∨ ∃ zone_id, (build_changes p conn zones zone r).1 = [EvGetAllRRSets zone_id].
Proof.
  unfold build_changes.
  destruct (zones !! zone) as [zone_id|]; [|left; split; [done|by eexists]].
  rewrite M_bind_ret. cbv zeta.
  destruct (type_in p) as [t|]; [|left; split; [done|by eexists]].
  destruct (decide (t = "")); [left; split; [done|by eexists]|].
  rewrite M_bind_ret.
  destruct (_ && _); [left; split; [done|by eexists]|].
  unfold when_. rewrite M_bind_ret.
  right. exists zone_id.
  destruct (scan _ _ _ _ _ _ _ _ _) as [fr|o]; [|reflexivity].
  rewrite M_bind_lift_next.
  pose proof (changes_for_trace p zone_id t (with_trailing_dot r)
                (value_list (value_in p)) fr.1 fr.2) as Htr.
  destruct (changes_for _ _ _ _ _ _ _) as [tr c]. simpl in Htr. subst tr.
  reflexivity.
Qed.

Lemma zone_operation_trace p conn zones zone :
  (length (zone_operation p conn zones zone).1 ≤ 1)%nat
  ∧ attempts (zone_operation p conn zones zone).1 = 0%nat
  ∧ sleeps (zone_operation p conn zones zone).1 = 0%nat.
Proof.
  unfold zone_operation.
  repeat case_match; simpl; split_and!; first [lia | reflexivity].
Qed.

End calls.

(** X26.  Every run starts with the one listing of the hosted zones;
    a hosted-zone operation follows it with at most one call, and a
    record operation with at most one listing of record sets and then
    at most 11 submissions of one batch, 10 pauses between them. *)
Theorem calls_of_a_run {num : Py.Numeric} (p : Params) (conn : Provider) :
  ∃ rest, (main p conn).1 = EvGetAllHostedZones :: rest
    ∧ ((given (record_in p) = false ∧ (length rest ≤ 1)%nat
        ∧ attempts rest = 0%nat ∧ sleeps rest = 0%nat)
       ∨ (given (record_in p) = true
          ∧ (rest = []
             ∨ ∃ zone_id, rest = [EvGetAllRRSets zone_id]
                 ∨ ∃ batch n, (n ≤ 10)%nat
                     ∧ rest = EvGetAllRRSets zone_id
                                :: retry_trace batch (retry_interval_in p) n))).
Proof.
  destruct (given_cases (record_in p)) as [Hno|(r & Hr)].
  - rewrite (main_zone_operation p conn Hno).
    pose proof (zone_operation_truthful p conn (zones_of (get_all_hosted_zones conn))
                  (with_trailing_dot (zone_in p))) as (tr & o & Hz & _).
    pose proof (zone_operation_trace p conn (zones_of (get_all_hosted_zones conn))
                  (with_trailing_dot (zone_in p))) as (Hlen & Hatt & Hsl).
    rewrite Hz in *. simpl in *. exists tr. split; [done|]. by left.
  - assert (Hg : given (record_in p) = true).
    { destruct Hr as [-> Hne]. simpl. by rewrite bool_decide_eq_false_2. }
    pose proof (build_changes_trace p conn (zones_of (get_all_hosted_zones conn))
                  (with_trailing_dot (zone_in p)) r) as Hshape.
    destruct (build_changes p conn _ _ r) as [tr [batch|o]] eqn:Hb; simpl in Hshape.
    + rewrite (main_record_submitted p conn r tr batch Hr Hb).
      destruct Hshape as [[_ [o Ho]]|[zone_id ->]]; [done|].
      unfold commit.
      destruct (commit_loop_bounded (commit_replies conn) batch (retry_interval_in p)
                  10 0 []) as (n & Hn & ->).
      eexists. split; [reflexivity|]. right. split; [done|]. right.
      exists zone_id. right. exists batch, n. split; [lia|done].
    + rewrite (main_record_stopped p conn r tr o Hr Hb).
      eexists. split; [reflexivity|]. right. split; [done|].
      destruct Hshape as [[-> _]|[zone_id ->]]; [by left|right].
      exists zone_id. by left.
Qed.

(** ** What a batch may contain *)

Section batch.
Context {num : Py.Numeric}.

Lemma changes_for_batch p zone_id type record vl found rec tr batch :
  changes_for p zone_id type record vl found rec = (tr, Next batch) →
  hosted_zone_id batch = zone_id
  ∧ Forall (λ c, ch_name c = record ∧ ch_type c = type) (changes batch)
  ∧ (∃ c, last (changes batch) = Some c
        ∧ ch_ttl c = ttl_in p ∧ ch_values c = Py.items vl
        ∧ ch_action c = (if bool_decide (state_in p = st_present) then CREATE else DELETE))
  ∧ (length (changes batch) ≤ 2)%nat
  ∧ state_in p ≠ st_list.
Proof.
  unfold changes_for.
  destruct (state_in p) eqn:Hst; [done| |].
  - destruct found; simpl.
    + destruct (overwrite p) as [[]|]; simpl; [|done|done].
      destruct rec as [rd|]; [|done]. simpl.
      pose proof (add_values_snoc zone_id []
        {| ch_action := DELETE; ch_name := record; ch_type := type;
           ch_ttl := rec_ttl rd; ch_values := [] |} (rec_values rd)) as Hdel.
      simpl in Hdel. rewrite Hdel. simpl.
      pose proof (add_values_snoc zone_id
        [{| ch_action := DELETE; ch_name := record; ch_type := type;
            ch_ttl := rec_ttl rd; ch_values := rec_values rd |}]
        {| ch_action := CREATE; ch_name := record; ch_type := type;
           ch_ttl := ttl_in p; ch_values := [] |} (Py.items vl)) as Hcre.
      simpl in Hcre. rewrite Hcre. intros [= <- <-]. simpl.
      split_and!; [done|by repeat constructor|by eexists|lia|done].
    + pose proof (add_values_snoc zone_id []
        {| ch_action := CREATE; ch_name := record; ch_type := type;
           ch_ttl := ttl_in p; ch_values := [] |} (Py.items vl)) as Hcre.
      simpl in Hcre. rewrite Hcre. intros [= <- <-]. simpl.
      split_and!; [done|by repeat constructor|by eexists|lia|done].
  - destruct found; simpl; [|done].
    pose proof (add_values_snoc zone_id []
      {| ch_action := DELETE; ch_name := record; ch_type := type;
         ch_ttl := ttl_in p; ch_values := [] |} (Py.items vl)) as Hdel.
    simpl in Hdel. rewrite Hdel. intros [= <- <-]. simpl.
    split_and!; [done|by repeat constructor|by eexists|lia|done].
Qed.

End batch.

(** X27.  Whatever the provider lists, a batch that a record operation
    submits belongs to the zone id found for the zone name, has one or
    two entries, all for the desired record name and type, and ends with
    the entry for the desired record: a CREATE for [present], a DELETE
    for [absent], with the TTL and values of the caller. *)
Theorem submitted_batch_is_for_the_record {num : Py.Numeric}
    (p : Params) (conn : Provider) (r : string) (tr : list Event)
    (batch : ResourceRecordSets) :
  build_changes p conn (zones_of (get_all_hosted_zones conn))
    (with_trailing_dot (zone_in p)) r = (tr, Next batch) →
  zones_of (get_all_hosted_zones conn) !! with_trailing_dot (zone_in p)
  = Some (hosted_zone_id batch)
  ∧ Forall (λ c, ch_name c = with_trailing_dot r ∧ type_in p = Some (ch_type c))
      (changes batch)
  ∧ (∃ c, last (changes batch) = Some c
        ∧ ch_ttl c = ttl_in p
        ∧ ch_values c = Py.items (value_list (value_in p))
        ∧ ch_action c = (if bool_decide (state_in p = st_present) then CREATE else DELETE))
  ∧ (1 ≤ length (changes batch) ≤ 2)%nat
  ∧ state_in p ≠ st_list.
Proof.
  unfold build_changes.
  destruct (zones_of _ !! _) as [zone_id|]; [|done]. rewrite M_bind_ret. cbv zeta.
  destruct (type_in p) as [t|]; [|done].
  destruct (decide (t = "")); [done|]. rewrite M_bind_ret.
  destruct (_ && _); [done|]. unfold when_. rewrite M_bind_ret.
  destruct (scan _ _ _ _ _ _ _ _ _) as [fr|o]; [|done].
  rewrite M_bind_lift_next.
  destruct (changes_for p zone_id t (with_trailing_dot r) (value_list (value_in p))
              fr.1 fr.2) as [tr' c] eqn:Hc.
  unfold mbind, M_bind, emit. intros [= <- ->].
  destruct (changes_for_batch _ _ _ _ _ _ _ _ _ Hc) as (Hz & Hall & (c & Hlast & Hc') & Hlen & Hst).
  split_and!; [by rewrite Hz| |by exists c| |lia|done].
  - eapply Forall_impl; [exact Hall|]. by intros ? [-> ->].
  - destruct (changes batch); [done|simpl; lia].
Qed.

Lemma submitted_batch_is_for_the_record_witness :
  Forall (λ c, ch_name c = "new.foo.com." ∧ Some "A" = Some (ch_type c))
    [{| ch_action := DELETE; ch_name := "new.foo.com."; ch_type := "A";
        ch_ttl := Py.Str "300"; ch_values := ["9.9.9.9"] |};
     {| ch_action := CREATE; ch_name := "new.foo.com."; ch_type := "A";
        ch_ttl := Py.Int 7200; ch_values := ["1.1.1.1"; "2.2.2.2"] |}].
Proof.
  apply (submitted_batch_is_for_the_record (num:=Py.decimal)
           (Sample.desired st_present (Some true))
           (Sample.provider [Sample.other] Sample.replies_ok)
           "new.foo.com" [EvGetAllRRSets "Z1"]
           {| hosted_zone_id := "Z1";
              changes :=
                [{| ch_action := DELETE; ch_name := "new.foo.com."; ch_type := "A";
                    ch_ttl := Py.Str "300"; ch_values := ["9.9.9.9"] |};
                 {| ch_action := CREATE; ch_name := "new.foo.com."; ch_type := "A";
                    ch_ttl := Py.Int 7200; ch_values := ["1.1.1.1"; "2.2.2.2"] |}] |}).
  reflexivity.
Defined.
